(** * BSON <-> tagged JSON conversion and the Content payload filter

    A shallow embedding of [bson_to_json.py], [json_to_bson.py] and
    [remove_props.py].  Python values are one inductive type [value]
    (the functions are typed [Any] in the source), raised exceptions are
    the left injection of a sum, and in-place mutation is modelled by
    returning the state of the object after the call.  The library
    functions that have a short exact description ([base64], [ObjectId],
    [Timestamp], [DBRef]) are written out; [Decimal128], the JSON text
    layer, UTF-8, [str.lower] and [bson.encode] / [bson.decode_all] are
    variables of the sections that use them.  Of
    [b64_from_link_noprops.py] the two functions that compute are
    modelled, [convert_file_to_base64] and the path of [download_content];
    the function that runs the three scripts on the download is not. *)

From Stdlib Require Import ZArith NArith Lia List Bool.
From Stdlib Require Import Ascii String.
From Stdlib.Strings Require Import Byte.
Import ListNotations.

Local Open Scope string_scope.
Local Open Scope list_scope.

(** ** Exceptions *)

(** The exception classes that the code and the library calls it makes can
    raise.  [BinasciiError], [JSONDecodeError] and [UnicodeDecodeError] are
    subclasses of [ValueError] in Python; [InvalidId], [InvalidDocument] and
    [InvalidBSON] are the subclasses of [bson.errors.BSONError].  An
    exception is kept as its class and its message is not: the two
    [ValueError]s that [bson_to_json] raises for bytes that [bson] rejects,
    one from the validation and one from the decoding, are one value. *)
Inductive exn : Type :=
| BinasciiError
| JSONDecodeError
| UnicodeDecodeError
| ValueError
| TypeError
| AttributeError
| KeyError
| InvalidId
| InvalidDocument
| InvalidBSON
| IOError
| RuntimeError.

(** [isinstance(e, ValueError)] *)
Definition is_ValueError (e : exn) : bool :=
  match e with
  | BinasciiError | JSONDecodeError | UnicodeDecodeError | ValueError => true
  | _ => false
  end.

(** [isinstance(e, bson.errors.BSONError)] *)
Definition is_BSONError (e : exn) : bool :=
  match e with
  | InvalidId | InvalidDocument | InvalidBSON => true
  | _ => false
  end.

(** [isinstance(e, IOError)] *)
Definition is_IOError (e : exn) : bool :=
  match e with
  | IOError => true
  | _ => false
  end.

(** A computation that returns a value or raises. *)
Definition result (A : Type) : Type := (exn + A)%type.

Definition ret {A : Type} (a : A) : result A := inr a.
Definition raise {A : Type} (e : exn) : result A := inl e.

Definition bind {A B : Type} (m : result A) (f : A -> result B) : result B :=
  match m with
  | inl e => inl e
  | inr a => f a
  end.

Notation "x <- m ;; k" := (bind m (fun x => k))
  (at level 61, m at next level, right associativity).

(** Evaluates [f] on the elements from left to right; the first exception
    wins, as in a Python comprehension. *)
Fixpoint mapM {A B : Type} (f : A -> result B) (l : list A) : result (list B) :=
  match l with
  | [] => ret []
  | a :: t => b <- f a ;; bs <- mapM f t ;; ret (b :: bs)
  end.

(** ** Base64 (the [base64] / [binascii] modules) *)

Module Base64.

Definition BASE64_PAD : ascii := "="%char.

(** [table_b2a_base64]: the alphabet, indexed by a 6-bit group. *)
Definition table_b2a_base64 (n : N) : ascii :=
  if (n <? 26)%N then ascii_of_N (65 + n)
  else if (n <? 52)%N then ascii_of_N (97 + (n - 26))
  else if (n <? 62)%N then ascii_of_N (48 + (n - 52))
  else if (n =? 62)%N then "+"%char
  else "/"%char.

(** [table_a2b_base64]: the 6-bit group of a character of the alphabet,
    [None] for every other character. *)
Definition table_a2b_base64 (c : ascii) : option N :=
  let n := N_of_ascii c in
  if ((65 <=? n) && (n <=? 90))%N then Some (n - 65)%N
  else if ((97 <=? n) && (n <=? 122))%N then Some (n - 97 + 26)%N
  else if ((48 <=? n) && (n <=? 57))%N then Some (n - 48 + 52)%N
  else if (n =? 43)%N then Some 62%N
  else if (n =? 47)%N then Some 63%N
  else None.

(** Storing an integer into an [unsigned char]. *)
Definition byte_of_N (n : N) : byte :=
  match Byte.of_N (n mod 256) with
  | Some b => b
  | None => x00
  end.

(** [binascii.b2a_base64(data, newline=False)], three bytes at a time,
    followed by [.decode('utf-8')] (the output is ASCII). *)
Fixpoint b64encode (data : list byte) : string :=
  match data with
  | [] => EmptyString
  | [b1] =>
      let n1 := Byte.to_N b1 in
      String (table_b2a_base64 (N.shiftr n1 2))
        (String (table_b2a_base64 (N.shiftl (N.land n1 3) 4))
           (String BASE64_PAD (String BASE64_PAD EmptyString)))
  | [b1; b2] =>
      let n1 := Byte.to_N b1 in
      let n2 := Byte.to_N b2 in
      String (table_b2a_base64 (N.shiftr n1 2))
        (String (table_b2a_base64
                   (N.lor (N.shiftl (N.land n1 3) 4) (N.shiftr n2 4)))
           (String (table_b2a_base64 (N.shiftl (N.land n2 15) 2))
              (String BASE64_PAD EmptyString)))
  | b1 :: b2 :: b3 :: rest =>
      let n1 := Byte.to_N b1 in
      let n2 := Byte.to_N b2 in
      let n3 := Byte.to_N b3 in
      String (table_b2a_base64 (N.shiftr n1 2))
        (String (table_b2a_base64
                   (N.lor (N.shiftl (N.land n1 3) 4) (N.shiftr n2 4)))
           (String (table_b2a_base64
                      (N.lor (N.shiftl (N.land n2 15) 2) (N.shiftr n3 6)))
              (String (table_b2a_base64 (N.land n3 63))
                 (b64encode rest))))
  end.

(** The loop of [binascii.a2b_base64] with [strict_mode] off, which is what
    [base64.b64decode(s)] runs ([validate=False]): characters outside the
    alphabet are skipped, a pad sequence that completes a quad ends the
    input, and leftover data characters raise [binascii.Error].
    [acc] holds the bytes written so far, most recent first. *)
Fixpoint a2b_loop (s : string) (quad_pos : nat) (leftchar : N) (pads : nat)
         (acc : list byte) : result (list byte) :=
  match s with
  | EmptyString =>
      match quad_pos with
      | O => ret (rev acc)
      | _ => raise BinasciiError
      end
  | String this_ch rest =>
      if Ascii.eqb this_ch BASE64_PAD then
        if (2 <=? quad_pos)%nat then
          if (4 <=? quad_pos + S pads)%nat then ret (rev acc)
          else a2b_loop rest quad_pos leftchar (S pads) acc
        else a2b_loop rest quad_pos leftchar pads acc
      else
        match table_a2b_base64 this_ch with
        | None => a2b_loop rest quad_pos leftchar pads acc
        | Some v =>
            match quad_pos with
            | 0%nat => a2b_loop rest 1 v 0 acc
            | 1%nat =>
                a2b_loop rest 2 (N.land v 15) 0
                  (byte_of_N (N.lor (N.shiftl leftchar 2) (N.shiftr v 4)) :: acc)
            | 2%nat =>
                a2b_loop rest 3 (N.land v 3) 0
                  (byte_of_N (N.lor (N.shiftl leftchar 4) (N.shiftr v 2)) :: acc)
            | _ =>
                a2b_loop rest 0 0 0
                  (byte_of_N (N.lor (N.shiftl leftchar 6) v) :: acc)
            end
        end
  end.

Definition a2b_base64 (s : string) : result (list byte) := a2b_loop s 0 0 0 [].

(** [s.isascii()]: every character of the string is below 128. *)
Fixpoint isascii (s : string) : bool :=
  match s with
  | EmptyString => true
  | String c rest => (N_of_ascii c <? 128)%N && isascii rest
  end.

(** The characters of a byte string. *)
Definition string_of_bytes (b : list byte) : string :=
  string_of_list_ascii (map ascii_of_byte b).

End Base64.

(** ** Python values *)

(** The values that reach the converters: what [json.load] returns (null,
    booleans, numbers, strings, lists, string-keyed dicts) and what
    [bson.decode_all] returns besides ([bytes], [Binary], [ObjectId],
    [DBRef], [Timestamp], [Decimal128], [datetime]).  A float is kept as its
    bit pattern and a [Decimal128] as its two 64-bit words; neither is
    inspected by the code.  A dict is the list of its items in insertion
    order; Python keeps its keys distinct. *)
Unset Elimination Schemes.
Inductive value : Type :=
| VNone
| VBool (b : bool)
| VInt (n : Z)
| VFloat (bits : Z)
| VStr (s : string)
| VBytes (data : list byte)
| VBinary (data : list byte) (subtype : Z)
| VObjectId (binary : list byte)
| VDBRef (collection : string) (id : value) (database : option string)
| VTimestamp (time inc : Z)
| VDecimal128 (high low : Z)
| VDatetime (millis : Z)
| VList (elems : list value)
| VDict (items : list (string * value)).
Set Elimination Schemes.

(** Structural induction that reaches the elements of lists and dicts. *)
Section ValueInduction.

Variable P : value -> Prop.
Hypothesis HNone : P VNone.
Hypothesis HBool : forall b, P (VBool b).
Hypothesis HInt : forall n, P (VInt n).
Hypothesis HFloat : forall f, P (VFloat f).
Hypothesis HStr : forall s, P (VStr s).
Hypothesis HBytes : forall d, P (VBytes d).
Hypothesis HBinary : forall d st, P (VBinary d st).
Hypothesis HObjectId : forall b, P (VObjectId b).
Hypothesis HDBRef : forall c i db, P i -> P (VDBRef c i db).
Hypothesis HTimestamp : forall t i, P (VTimestamp t i).
Hypothesis HDecimal : forall h l, P (VDecimal128 h l).
Hypothesis HDatetime : forall m, P (VDatetime m).
Hypothesis HList : forall l, Forall P l -> P (VList l).
Hypothesis HDict : forall d, Forall (fun kv => P (snd kv)) d -> P (VDict d).

Fixpoint value_induction (v : value) : P v :=
  match v with
  | VNone => HNone
  | VBool b => HBool b
  | VInt n => HInt n
  | VFloat f => HFloat f
  | VStr s => HStr s
  | VBytes d => HBytes d
  | VBinary d st => HBinary d st
  | VObjectId b => HObjectId b
  | VDBRef c i db => HDBRef c i db (value_induction i)
  | VTimestamp t i => HTimestamp t i
  | VDecimal128 h l => HDecimal h l
  | VDatetime m => HDatetime m
  | VList l =>
      HList l
        ((fix go (l : list value) : Forall P l :=
            match l with
            | [] => Forall_nil P
            | x :: t => Forall_cons x (value_induction x) (go t)
            end) l)
  | VDict d =>
      HDict d
        ((fix go (d : list (string * value)) : Forall (fun kv => P (snd kv)) d :=
            match d with
            | [] => Forall_nil _
            | kv :: t => Forall_cons kv (value_induction (snd kv)) (go t)
            end) d)
  end.

End ValueInduction.

(** *** Dict operations *)

(** [d.get(k)] *)
Fixpoint dict_get (k : string) (d : list (string * value)) : option value :=
  match d with
  | [] => None
  | (k', v) :: t => if String.eqb k k' then Some v else dict_get k t
  end.

(** [k in d] *)
Definition dict_has (k : string) (d : list (string * value)) : bool :=
  match dict_get k d with
  | Some _ => true
  | None => false
  end.

(** [d[k] = v]: an existing key keeps its place, a new key goes last. *)
Fixpoint dict_set (k : string) (v : value) (d : list (string * value))
  : list (string * value) :=
  match d with
  | [] => [(k, v)]
  | (k', v') :: t =>
      if String.eqb k k' then (k, v) :: t else (k', v') :: dict_set k v t
  end.

(** [obj[k]] for a string key [k]: only a dict can be indexed by a string. *)
Definition getitem (obj : value) (k : string) : result value :=
  match obj with
  | VDict d =>
      match dict_get k d with
      | Some v => ret v
      | None => raise KeyError
      end
  | _ => raise TypeError
  end.

(** *** String operations *)

(** [s.startswith(p)] *)
Definition startswith (s p : string) : bool := String.prefix p s.

(** [sub in s] for two strings. *)
Fixpoint str_contains (s sub : string) : bool :=
  String.prefix sub s ||
  match s with
  | EmptyString => false
  | String _ rest => str_contains rest sub
  end.

(** [s.split(sep)] for a one-character separator. *)
Fixpoint split (sep : ascii) (s : string) : list string :=
  match s with
  | EmptyString => [EmptyString]
  | String c rest =>
      if Ascii.eqb c sep then EmptyString :: split sep rest
      else
        match split sep rest with
        | [] => [String c EmptyString]
        | h :: t => String c h :: t
        end
  end.

(** ** The model of the three scripts *)

Module Model.

(** ** The [bson] value classes *)

Module ObjectIdLib.

(** One lower-case hexadecimal digit. *)
Definition hex_digit (n : N) : ascii :=
  if (n <? 10)%N then ascii_of_N (48 + n) else ascii_of_N (87 + n).

(** The value of a hexadecimal digit, either case. *)
Definition hex_value (c : ascii) : option N :=
  let n := N_of_ascii c in
  if ((48 <=? n) && (n <=? 57))%N then Some (n - 48)%N
  else if ((97 <=? n) && (n <=? 102))%N then Some (n - 87)%N
  else if ((65 <=? n) && (n <=? 70))%N then Some (n - 55)%N
  else None.

(** [binascii.hexlify(b).decode()] *)
Fixpoint hexlify (b : list byte) : string :=
  match b with
  | [] => EmptyString
  | x :: t =>
      let n := Byte.to_N x in
      String (hex_digit (N.shiftr n 4)) (String (hex_digit (N.land n 15)) (hexlify t))
  end.

(** ASCII white space, as [bytes.fromhex] skips it: the characters 9 to 13
    and the space. *)
Definition is_space (c : ascii) : bool :=
  let n := N_of_ascii c in
  (((9 <=? n) && (n <=? 13)) || (n =? 32))%N.

(** [bytes.fromhex(s)]: the white space in front of a pair of digits is
    skipped, also at the end of the string; the two digits of a pair
    follow each other.  [None] stands for the [ValueError]. *)
Fixpoint fromhex (s : string) : option (list byte) :=
  match s with
  | EmptyString => Some []
  | String c1 rest1 =>
      if is_space c1 then fromhex rest1
      else
        match rest1 with
        | EmptyString => None
        | String c2 rest =>
            match hex_value c1, hex_value c2, fromhex rest with
            | Some h, Some l, Some t =>
                Some (Base64.byte_of_N (N.lor (N.shiftl h 4) l) :: t)
            | _, _, _ => None
            end
        end
  end.

End ObjectIdLib.

(** The library behaviour that the converters call and that is left
    abstract: [str()] of a [DBRef] id that is neither a string nor an
    [ObjectId], the string form and the constructor of [Decimal128], and
    the identifier that [ObjectId()] generates when it is given [None]. *)
Section Codec.

Variable py_repr : value -> string.
Variable Decimal128_str : Z -> Z -> string.
Variable Decimal128_new : value -> result (Z * Z).
Variable ObjectId_generate : list byte.

(** [str(v)] *)
Definition py_str (v : value) : string :=
  match v with
  | VStr s => s
  | VObjectId b => ObjectIdLib.hexlify b
  | _ => py_repr v
  end.

(** [base64.b64decode(s)]: a string must be ASCII, a bytes-like object is
    taken as it is, anything else is a [TypeError]. *)
Definition b64decode (s : value) : result (list byte) :=
  match s with
  | VStr s =>
      if Base64.isascii s then Base64.a2b_base64 s else raise ValueError
  | VBytes b | VBinary b _ => Base64.a2b_base64 (Base64.string_of_bytes b)
  | _ => raise TypeError
  end.

(** [Binary(data)]: subtype 0. *)
Definition Binary_new (data : list byte) : value := VBinary data 0.

(** [ObjectId(oid)]: [None] generates an identifier, 12 bytes or another
    [ObjectId] are taken over, a string must have 24 characters that
    [bytes.fromhex] reads ([InvalidId] otherwise; the identifier has fewer
    than 12 bytes when the string holds white space), any other type is a
    [TypeError]. *)
Definition ObjectId_new (oid : value) : result value :=
  match oid with
  | VNone => ret (VObjectId ObjectId_generate)
  | VBytes b | VBinary b _ =>
      if (List.length b =? 12)%nat then ret (VObjectId b) else raise TypeError
  | VObjectId b => ret (VObjectId b)
  | VStr s =>
      if (String.length s =? 24)%nat then
        match ObjectIdLib.fromhex s with
        | Some b => ret (VObjectId b)
        | None => raise InvalidId
        end
      else raise InvalidId
  | _ => raise TypeError
  end.

(** [DBRef(collection, id)]: the collection must be a string. *)
Definition DBRef_new (collection id : value) : result value :=
  match collection with
  | VStr c => ret (VDBRef c id None)
  | _ => raise TypeError
  end.

Definition UPPERBOUND : Z := 4294967296.

(** [isinstance(v, int)], with the integer ([bool] is a subclass of [int]). *)
Definition as_int (v : value) : option Z :=
  match v with
  | VInt n => Some n
  | VBool true => Some 1%Z
  | VBool false => Some 0%Z
  | _ => None
  end.

(** [Timestamp(time, inc)]: a [datetime] is converted to seconds since the
    epoch, both fields must be integers in [[0, 2**32)].  A field given as
    a boolean is kept as the integer it equals: the library stores the
    boolean itself, which Python compares equal to that integer and which
    the JSON writer prints as [true] or [false]. *)
Definition Timestamp_new (time inc : value) : result value :=
  let time := match time with
              | VDatetime ms => VInt (ms / 1000)
              | _ => time
              end in
  match as_int time with
  | None => raise TypeError
  | Some t =>
      match as_int inc with
      | None => raise TypeError
      | Some i =>
          if ((0 <=? t) && (t <? UPPERBOUND))%Z then
            if ((0 <=? i) && (i <? UPPERBOUND))%Z then ret (VTimestamp t i)
            else raise ValueError
          else raise ValueError
      end
  end.

(** *** [json_to_bson.py]: [convert_json_to_bson] *)

Fixpoint convert_json_to_bson (data : value) : result value :=
  match data with
  | VDict items =>
      if dict_has "$binary" items then
        payload <- getitem data "$binary" ;;
        b <- b64decode payload ;;
        ret (Binary_new b)
      else if dict_has "$oid" items then
        oid <- getitem data "$oid" ;;
        ObjectId_new oid
      else if dict_has "$ref" items && dict_has "$id" items then
        collection <- getitem data "$ref" ;;
        id <- getitem data "$id" ;;
        oid <- ObjectId_new id ;;
        DBRef_new collection oid
      else if dict_has "$timestamp" items then
        ts <- getitem data "$timestamp" ;;
        t <- getitem ts "t" ;;
        i <- getitem ts "i" ;;
        Timestamp_new t i
      else if dict_has "$numberDecimal" items then
        d <- getitem data "$numberDecimal" ;;
        hl <- Decimal128_new d ;;
        ret (VDecimal128 (fst hl) (snd hl))
      else
        items' <- (fix convert_items (l : list (string * value))
                     : result (list (string * value)) :=
                     match l with
                     | [] => ret []
                     | (k, v) :: t =>
                         v' <- convert_json_to_bson v ;;
                         t' <- convert_items t ;;
                         ret ((k, v') :: t')
                     end) items ;;
        ret (VDict items')
  | VList elems =>
      elems' <- (fix convert_elems (l : list value) : result (list value) :=
                   match l with
                   | [] => ret []
                   | v :: t =>
                       v' <- convert_json_to_bson v ;;
                       t' <- convert_elems t ;;
                       ret (v' :: t')
                   end) elems ;;
      ret (VList elems')
  | VStr s =>
      if startswith s "$binary:" then
        b <- b64decode (VStr (nth 1 (split ":" s) EmptyString)) ;;
        ret (Binary_new b)
      else ret data
  | _ => ret data
  end.

(** *** [bson_to_json.py]: [convert_bson_to_json] and [BSONEncoder] *)

(** [Binary] is a subclass of [bytes], so [isinstance(data, bytes)] holds
    for both. *)
Fixpoint convert_bson_to_json (data : value) : value :=
  match data with
  | VDict items =>
      VDict ((fix convert_items (l : list (string * value)) :=
                match l with
                | [] => []
                | (k, v) :: t => (k, convert_bson_to_json v) :: convert_items t
                end) items)
  | VList elems =>
      VList ((fix convert_elems (l : list value) :=
                match l with
                | [] => []
                | v :: t => convert_bson_to_json v :: convert_elems t
                end) elems)
  | VBytes b | VBinary b _ => VDict [("$binary", VStr (Base64.b64encode b))]
  | _ => data
  end.

(** [BSONEncoder.default]; the last line, [super().default(obj)], raises
    [TypeError] for every object. *)
Definition BSONEncoder_default (obj : value) : result value :=
  match obj with
  | VBinary b _ => ret (VDict [("$binary", VStr (Base64.b64encode b))])
  | VObjectId _ => ret (VDict [("$oid", VStr (py_str obj))])
  | VDBRef collection id _ =>
      ret (VDict [("$ref", VStr collection); ("$id", VStr (py_str id))])
  | VTimestamp time inc =>
      ret (VDict [("$timestamp", VDict [("t", VInt time); ("i", VInt inc)])])
  | VDecimal128 high low =>
      ret (VDict [("$numberDecimal", VStr (Decimal128_str high low))])
  | VBytes b => ret (VDict [("$binary", VStr (Base64.b64encode b))])
  | _ => raise TypeError
  end.

(** [json.dump(o, f, cls=BSONEncoder)] followed by [json.load]: the JSON
    value that the written text denotes.  The encoder emits null,
    booleans, numbers and strings as they are, walks lists and dicts, and
    hands every other object to [default], whose result it encodes in
    turn; the results of [BSONEncoder_default] hold only strings and
    integers, so that second pass leaves them as they are. *)
Fixpoint json_dump (o : value) : result value :=
  match o with
  | VNone | VBool _ | VInt _ | VFloat _ | VStr _ => ret o
  | VList elems =>
      elems' <- (fix dump_elems (l : list value) : result (list value) :=
                   match l with
                   | [] => ret []
                   | v :: t =>
                       v' <- json_dump v ;;
                       t' <- dump_elems t ;;
                       ret (v' :: t')
                   end) elems ;;
      ret (VList elems')
  | VDict items =>
      items' <- (fix dump_items (l : list (string * value))
                   : result (list (string * value)) :=
                   match l with
                   | [] => ret []
                   | (k, v) :: t =>
                       v' <- json_dump v ;;
                       t' <- dump_items t ;;
                       ret ((k, v') :: t')
                   end) items ;;
      ret (VDict items')
  | _ => BSONEncoder_default o
  end.

(** The encode direction as [bson_to_json] runs it on the decoded data:
    [convert_bson_to_json], then [json.dump] with [BSONEncoder]. *)
Definition encode (data : value) : result value :=
  json_dump (convert_bson_to_json data).

End Codec.

(** ** [remove_props.py] *)

(** What a call leaves behind: the state of the object it worked on (the
    code mutates its argument in place, and a mutation made before an
    exception stays), one entry per message printed, and the exception that
    left the call, if any. *)
Record outcome (A : Type) : Type := Outcome {
  state : A;
  printed : list exn;
  raised : option exn
}.

Arguments Outcome {A} _ _ _.
Arguments state {A} _.
Arguments printed {A} _.
Arguments raised {A} _.

(** A call that changes nothing. *)
Definition untouched {A : Type} (a : A) : outcome A := Outcome a [] None.

(** [isinstance(v, (dict, list))] *)
Definition is_container (v : value) : bool :=
  match v with
  | VDict _ | VList _ => true
  | _ => false
  end.

(** The items that a loop has not reached, when [fresh] holds the dict that
    [data['Content'] = ...] stored under the key [Content] before the loop
    started. *)
Fixpoint overwrite (fresh : option value) (l : list (string * value))
  : list (string * value) :=
  match fresh, l with
  | None, _ => l
  | Some _, [] => []
  | Some content, (key, v) :: rest =>
      if String.eqb key "Content" then (key, content) :: rest
      else (key, v) :: overwrite fresh rest
  end.

(** The two loops of [process_json] over the children of a node, for a
    visit [f] of one child. *)
Section Visit.

Variable f : value -> outcome value.

(** [for item in data: if isinstance(item, (dict, list)): f(item)] *)
Fixpoint visit_elems (l : list value) : outcome (list value) :=
  match l with
  | [] => untouched []
  | item :: rest =>
      let o := if is_container item then f item else untouched item in
      match raised o with
      | Some e => Outcome (state o :: rest) (printed o) (Some e)
      | None =>
          let r := visit_elems rest in
          Outcome (state o :: state r) (printed o ++ printed r) (raised r)
      end
  end.

(** [for key, value in data.items(): if isinstance(value, (dict, list)):
    f(value)].  [fresh] is set when [data['Content']] has just been
    overwritten with a one-entry dict holding a string: the dict is in
    place before the loop starts, the loop reaches it under its key, and
    the visit finds nothing to do in it. *)
Fixpoint visit_items (fresh : option value) (l : list (string * value))
  : outcome (list (string * value)) :=
  match l with
  | [] => untouched []
  | (key, v) :: rest =>
      match fresh, String.eqb key "Content" with
      | Some content, true =>
          let r := visit_items None rest in
          Outcome ((key, content) :: state r) (printed r) (raised r)
      | _, _ =>
          let o := if is_container v then f v else untouched v in
          match raised o with
          | Some e =>
              Outcome ((key, state o) :: overwrite fresh rest) (printed o) (Some e)
          | None =>
              let r := visit_items fresh rest in
              Outcome ((key, state o) :: state r) (printed o ++ printed r) (raised r)
          end
      end
  end.

End Visit.

(** The text side of the payload, left abstract: [json.loads], [json.dumps]
    and the UTF-8 codec of [bytes.decode] and [str.encode]. *)
Section Filter.

Variable json_loads : string -> result value.
Variable json_dumps : value -> string.
Variable utf8_decode : list byte -> result string.
Variable utf8_encode : string -> list byte.

(** [obj.get(k, default)]: only a dict has [get]. *)
Definition get (obj : value) (k : string) (default : value) : result value :=
  match obj with
  | VDict d =>
      match dict_get k d with
      | Some v => ret v
      | None => ret default
      end
  | _ => raise AttributeError
  end.

(** [x in container] for a string [x]: a substring test on a string, a
    membership test on a list, a key test on a dict, a [TypeError] on
    anything else. *)
Definition contains (container : value) (x : string) : result bool :=
  match container with
  | VStr s => ret (str_contains s x)
  | VList l =>
      ret (existsb (fun v => match v with
                             | VStr s => String.eqb s x
                             | _ => false
                             end) l)
  | VDict d => ret (dict_has x d)
  | _ => raise TypeError
  end.

(** [v is None] *)
Definition is_None (v : value) : bool :=
  match v with
  | VNone => true
  | _ => false
  end.

(** The condition of the comprehension:
    [search_key not in elem.get('AssetName', '') and
     elem.get('InventoryId') is None]. *)
Definition keep_elem (search_key : string) (elem : value) : result bool :=
  name <- get elem "AssetName" (VStr "") ;;
  found <- contains name search_key ;;
  if negb found then
    inventory <- get elem "InventoryId" VNone ;;
    ret (is_None inventory)
  else ret false.

(** [[elem for elem in elements if ...]] *)
Fixpoint filter_elements (search_key : string) (elements : list value)
  : result (list value) :=
  match elements with
  | [] => ret []
  | elem :: rest =>
      keep <- keep_elem search_key elem ;;
      rest' <- filter_elements search_key rest ;;
      ret (if keep then elem :: rest' else rest')
  end.

(** Lines 24-29: the [Elements] rewrite of the decoded payload. *)
Definition filter_payload (search_key : string) (decoded_json : value)
  : result value :=
  has <- contains decoded_json "Elements" ;;
  if has then
    elements <- getitem decoded_json "Elements" ;;
    match elements, decoded_json with
    | VList l, VDict d =>
        l' <- filter_elements search_key l ;;
        ret (VDict (dict_set "Elements" (VList l') d))
    | _, _ => ret decoded_json
    end
  else ret decoded_json.

(** How the work on one [Content] field ends. *)
Inductive content_outcome : Type :=
| Rewritten (encoded_json : string)
| Reported (e : exn)
| Uncaught (e : exn).

(** [except (json.JSONDecodeError, TypeError)] *)
Definition caught (e : exn) : bool :=
  match e with
  | JSONDecodeError | TypeError => true
  | _ => false
  end.

(** Lines 17-31 for the value [content] of [data['Content']]. *)
Definition rewrite_content (search_key : string) (content : value)
  : content_outcome :=
  match get content "$binary" (VStr "") with
  | inl e => Uncaught e
  | inr base64_content =>
      match (raw <- b64decode base64_content ;;
             text <- utf8_decode raw ;;
             json_loads text) with
      | inl e => if caught e then Reported e else Uncaught e
      | inr decoded_json =>
          match filter_payload search_key decoded_json with
          | inl e => Uncaught e
          | inr decoded_json' =>
              Rewritten (Base64.b64encode (utf8_encode (json_dumps decoded_json')))
          end
      end
  end.

(** The dict that replaces [data['Content']]. *)
Definition binary_tag (encoded_json : string) : value :=
  VDict [("$binary", VStr encoded_json)].

Fixpoint process_json (data : value) (search_key : string) : outcome value :=
  match data with
  | VDict items =>
      match dict_get "Content" items with
      | Some content =>
          match rewrite_content search_key content with
          | Uncaught e => Outcome data [] (Some e)
          | Reported e => Outcome data [e] None
          | Rewritten encoded_json =>
              let fresh := binary_tag encoded_json in
              let r := visit_items (fun v => process_json v search_key)
                         (Some fresh) items in
              Outcome (VDict (state r)) (printed r) (raised r)
          end
      | None =>
          let r := visit_items (fun v => process_json v search_key) None items in
          Outcome (VDict (state r)) (printed r) (raised r)
      end
  | VList elems =>
      let r := visit_elems (fun v => process_json v search_key) elems in
      Outcome (VList (state r)) (printed r) (raised r)
  | _ => untouched data
  end.

(** What [remove_props] leaves: the JSON value written back to the file
    ([None] when the file is not rewritten) and what was printed. *)
Inductive message : Type :=
| FailedToDecode (e : exn)
| Success
| ErrorOccurred (e : exn)
| UnexpectedError (e : exn).

Record file_run : Type := FileRun {
  written : option value;
  stdout : list message
}.

(** The two handlers of [remove_props]:
    [except (IOError, json.JSONDecodeError)] and [except Exception]. *)
Definition handler_message (e : exn) : message :=
  match e with
  | IOError | JSONDecodeError => ErrorOccurred e
  | _ => UnexpectedError e
  end.

(** [remove_props], given what [open] and [json.load] produce. *)
Definition remove_props (loaded : result value) (search_key : string) : file_run :=
  match loaded with
  | inl e => FileRun None [handler_message e]
  | inr data =>
      let o := process_json data search_key in
      match raised o with
      | Some e =>
          FileRun None (map FailedToDecode (printed o) ++ [handler_message e])
      | None =>
          FileRun (Some (state o)) (map FailedToDecode (printed o) ++ [Success])
      end
  end.

End Filter.

(** ** The file converters *)

(** [bson.encode] and [bson.decode_all], left abstract. *)
Section Files.

Variable py_repr : value -> string.
Variable Decimal128_str : Z -> Z -> string.
Variable Decimal128_new : value -> result (Z * Z).
Variable ObjectId_generate : list byte.
Variable bson_encode : value -> result (list byte).
Variable bson_decode_all : list byte -> result (list value).

(** What [json_to_bson] leaves: the content of the output file ([None]
    when it does not exist), what was printed, and the exception that left
    the call, if any. *)
Inductive notice : Type :=
| Converted
| ErrorProcessing (e : exn)
| Unexpected (e : exn).

Record conversion : Type := Conversion {
  output_file : option (list byte);
  notices : list notice;
  escaped : option exn
}.

(** [for doc in converted_data: bson_file.write(bson.encode(doc))], from
    the bytes already in the file. *)
Fixpoint write_docs (docs : list value) (file : list byte)
  : list byte * option exn :=
  match docs with
  | [] => (file, None)
  | doc :: rest =>
      match bson_encode doc with
      | inl e => (file, Some e)
      | inr record => write_docs rest (file ++ record)
      end
  end.

(** The two handlers of [json_to_bson]: [except (IOError, ValueError)] and
    [except Exception]; both print and return. *)
Definition handle (e : exn) : notice :=
  if is_IOError e || is_ValueError e then ErrorProcessing e else Unexpected e.

(** [json_to_bson], given what [open] and [json.load] produce and the
    content [before] of the output path. *)
Definition json_to_bson (loaded : result value) (before : option (list byte))
  : conversion :=
  match loaded with
  | inl e => Conversion before [handle e] None
  | inr data =>
      match convert_json_to_bson Decimal128_new ObjectId_generate data with
      | inl e => Conversion before [handle e] None
      | inr converted_data =>
          let '(file, failure) :=
            match converted_data with
            | VList docs => write_docs docs []
            | _ =>
                match bson_encode converted_data with
                | inl e => ([], Some e)
                | inr record => (record, None)
                end
            end in
          match failure with
          | Some e => Conversion (Some file) [handle e] None
          | None => Conversion (Some file) [Converted] None
          end
      end
  end.

End Files.

(** ** Specification-side definitions *)

(** Binary-native equality: [bson.encode] writes [bytes] and a [Binary] of
    subtype 0 as the same element, so a value is compared after its raw
    byte strings are read as such [Binary] values. *)
Fixpoint canon (v : value) : value :=
  match v with
  | VBytes b => VBinary b 0
  | VDBRef c i db => VDBRef c (canon i) db
  | VList elems =>
      VList ((fix canon_elems (l : list value) :=
                match l with
                | [] => []
                | x :: t => canon x :: canon_elems t
                end) elems)
  | VDict items =>
      VDict ((fix canon_items (l : list (string * value)) :=
                match l with
                | [] => []
                | (k, x) :: t => (k, canon x) :: canon_items t
                end) items)
  | _ => v
  end.

(** A mapping that the decoder reads as a tagged special value. *)
Definition tagged (items : list (string * value)) : bool :=
  dict_has "$binary" items
  || dict_has "$oid" items
  || (dict_has "$ref" items && dict_has "$id" items)
  || dict_has "$timestamp" items
  || dict_has "$numberDecimal" items.

Section Representable.

Variable Decimal128_str : Z -> Z -> string.
Variable Decimal128_new : value -> result (Z * Z).

(** The documents that the tagged JSON form can carry: blobs of subtype 0,
    12-byte object identifiers, references to an object identifier with no
    database, timestamps in range, decimals that their string form
    denotes, no other library object, no plain mapping that uses the
    reserved keys and no plain string with the legacy prefix. *)
Fixpoint representable (v : value) : Prop :=
  match v with
  | VNone | VBool _ | VInt _ | VFloat _ | VBytes _ => True
  | VStr s => startswith s "$binary:" = false
  | VBinary _ subtype => subtype = 0%Z
  | VObjectId b => List.length b = 12%nat
  | VDBRef _ id database =>
      match id with
      | VObjectId b => List.length b = 12%nat
      | _ => False
      end /\ database = None
  | VTimestamp t i =>
      (0 <= t < UPPERBOUND)%Z /\ (0 <= i < UPPERBOUND)%Z
  | VDecimal128 h l => Decimal128_new (VStr (Decimal128_str h l)) = inr (h, l)
  | VDatetime _ => False
  | VList elems =>
      (fix all (l : list value) : Prop :=
         match l with
         | [] => True
         | x :: t => representable x /\ all t
         end) elems
  | VDict items =>
      tagged items = false /\
      (fix all (l : list (string * value)) : Prop :=
         match l with
         | [] => True
         | (_, x) :: t => representable x /\ all t
         end) items
  end.

End Representable.

(** The element filter in the words of the specification: the [AssetName]
    of an element, the empty string when the field is missing. *)
Definition asset_name (elem : value) : string :=
  match elem with
  | VDict d =>
      match dict_get "AssetName" d with
      | Some (VStr s) => s
      | _ => EmptyString
      end
  | _ => EmptyString
  end.

(** The [InventoryId] field is absent or null. *)
Definition inventory_free (elem : value) : bool :=
  match elem with
  | VDict d =>
      match dict_get "InventoryId" d with
      | None | Some VNone => true
      | Some _ => false
      end
  | _ => true
  end.

(** An element is kept when its name does not contain the substring and it
    has no inventory identifier. *)
Definition kept (search_key : string) (elem : value) : bool :=
  negb (str_contains (asset_name elem) search_key) && inventory_free elem.

(** An element of [Elements] as the filter expects it: a mapping whose
    [AssetName], when present, is a string. *)
Definition is_element (elem : value) : bool :=
  match elem with
  | VDict d =>
      match dict_get "AssetName" d with
      | None | Some (VStr _) => true
      | Some _ => false
      end
  | _ => false
  end.

(** The payload under [content['$binary']], decoded as lines 17-19 do. *)
Definition payload (json_loads : string -> result value)
           (utf8_decode : list byte -> result string) (content : value)
  : result value :=
  base64_content <- get content "$binary" (VStr "") ;;
  raw <- b64decode base64_content ;;
  text <- utf8_decode raw ;;
  json_loads text.

(** The dict comprehension [{k: f(v) for k, v in items}] for an [f] that
    may raise. *)
Definition mapM_items (f : value -> result value) (items : list (string * value))
  : result (list (string * value)) :=
  mapM (fun kv => v' <- f (snd kv) ;; ret (fst kv, v')) items.

(** The strings that [bytes.fromhex] reads: pairs of hexadecimal digits
    with any ASCII white space before, between and after the pairs. *)
Fixpoint spaced_hex (s : string) : bool :=
  match s with
  | EmptyString => true
  | String c1 rest1 =>
      if ObjectIdLib.is_space c1 then spaced_hex rest1
      else
        match rest1 with
        | EmptyString => false
        | String c2 rest =>
            match ObjectIdLib.hex_value c1, ObjectIdLib.hex_value c2 with
            | Some _, Some _ => spaced_hex rest
            | _, _ => false
            end
        end
  end.

(** The strings from which [ObjectId] builds an identifier. *)
Definition accepted_oid_string (s : string) : bool :=
  (String.length s =? 24)%nat && spaced_hex s.

(** A valid object-identifier string: 24 hexadecimal characters. *)
Fixpoint all_hex (s : string) : bool :=
  match s with
  | EmptyString => true
  | String c rest =>
      match ObjectIdLib.hex_value c with
      | Some _ => all_hex rest
      | None => false
      end
  end.

Definition is_oid_string (s : string) : bool :=
  (String.length s =? 24)%nat && all_hex s.

(** The string has no colon. *)
Fixpoint colon_free (s : string) : bool :=
  match s with
  | EmptyString => true
  | String c rest => negb (Ascii.eqb c ":") && colon_free rest
  end.

End Model.

Import Model.

(** ** Sample data *)

(** A small library instance, enough to run the abstract functions on the
    sample documents: it knows the decimal zero and no other decimal. *)
Definition DECIMAL_ZERO_HIGH : Z := 3476778912330022912.

Definition sample_repr (v : value) : string := "None".

Definition sample_Decimal128_str (high low : Z) : string :=
  if ((high =? DECIMAL_ZERO_HIGH) && (low =? 0))%Z then "0" else "NaN".

Definition sample_Decimal128_new (v : value) : result (Z * Z) :=
  match v with
  | VStr s => if String.eqb s "0" then ret (DECIMAL_ZERO_HIGH, 0%Z) else raise RuntimeError
  | _ => raise TypeError
  end.

Definition sample_oid : list byte :=
  [x65; x4a; xf0; x3c; x9d; x1e; x2b; x00; x17; xa4; x5c; x01].

(** A document with one value of each tagged kind. *)
Definition sample_document : value :=
  VDict [("_id", VObjectId sample_oid);
         ("blob", VBytes [x00; xff; x10]);
         ("owner", VDBRef "users" (VObjectId sample_oid) None);
         ("at", VTimestamp 1700000000 1);
         ("price", VDecimal128 DECIMAL_ZERO_HIGH 0);
         ("tags", VList [VStr "hat"; VInt 3; VNone; VBool true])].

(** A reference whose identifier is a string and not an object identifier. *)
Definition string_reference : value :=
  VDict [("owner", VDBRef "users" (VStr "alice") None)].

(** The round trip of [string_reference] under every behaviour of the
    abstract library functions: it is encoded, and the decoder raises on
    the encoding. *)
Definition string_reference_is_lost : Prop :=
  forall py_repr Decimal128_str Decimal128_new ObjectId_generate,
    encode py_repr Decimal128_str string_reference
    = inr (VDict [("owner", VDict [("$ref", VStr "users"); ("$id", VStr "alice")])])
    /\ convert_json_to_bson Decimal128_new ObjectId_generate
         (VDict [("owner", VDict [("$ref", VStr "users"); ("$id", VStr "alice")])])
       = inl InvalidId.

(** A legacy string whose remainder has a second colon: the decoder reads
    the text up to that colon, base64-decoding the whole remainder gives
    three more bytes. *)
Definition legacy_second_colon : Prop :=
  forall Decimal128_new ObjectId_generate,
    convert_json_to_bson Decimal128_new ObjectId_generate (VStr "$binary:QUJD:eHl6")
    = inr (VBinary [x41; x42; x43] 0)
    /\ b64decode (VStr "QUJD:eHl6") = inr [x41; x42; x43; x78; x79; x7a].

(** Three documents, the first with a date. *)
Definition dated_documents : list value :=
  [VDict [("at", VDatetime 0)]; VDict []; VDict []].

(** The elements of the specification's example. *)
Definition red_pet_hat : value :=
  VDict [("AssetName", VStr "red_pet_hat"); ("InventoryId", VNone)].
Definition blue_hat : value :=
  VDict [("AssetName", VStr "blue_hat"); ("InventoryId", VStr "abc")].
Definition green_hat : value :=
  VDict [("AssetName", VStr "green_hat"); ("InventoryId", VNone)].

(** A text layer that knows one payload, the text [PAYLOAD], and reads it
    as an object whose [Elements] are the three elements above. *)
Definition sample_payload : list (string * value) :=
  [("Name", VStr "wardrobe"); ("Elements", VList [red_pet_hat; blue_hat; green_hat])].

Definition sample_loads (text : string) : result value :=
  if String.eqb text "PAYLOAD" then ret (VDict sample_payload) else raise JSONDecodeError.

Definition sample_dumps (v : value) : string := "DUMPED".

Definition sample_utf8_decode (b : list byte) : result string :=
  ret (Base64.string_of_bytes b).

Definition sample_utf8_encode (s : string) : list byte := list_byte_of_string s.

(** A node whose [Content] holds the base64 form of [PAYLOAD]. *)
Definition sample_node : list (string * value) :=
  [("Id", VInt 7); ("Content", VDict [("$binary", VStr "UEFZTE9BRA==")])].

(** A [bson] layer that knows the empty document, whose record is the five
    bytes of its length and terminator. *)
Definition EMPTY_RECORD : list byte := [x05; x00; x00; x00; x00].

Definition sample_bson_encode (doc : value) : result (list byte) :=
  match doc with
  | VDict [] => ret EMPTY_RECORD
  | _ => raise InvalidDocument
  end.

(** ** Shapes of values *)

(** A value that [json.dump] writes without help and [json.load] can
    return: null, booleans, numbers, strings, lists and dicts of such. *)
Fixpoint is_json (v : value) : bool :=
  match v with
  | VNone | VBool _ | VInt _ | VFloat _ | VStr _ => true
  | VList elems =>
      (fix all (l : list value) : bool :=
         match l with
         | [] => true
         | x :: t => is_json x && all t
         end) elems
  | VDict items =>
      (fix all (l : list (string * value)) : bool :=
         match l with
         | [] => true
         | (_, x) :: t => is_json x && all t
         end) items
  | _ => false
  end.

(** A JSON value that uses none of the tag vocabulary: no mapping with a
    tag key and no string with the legacy prefix, at any depth. *)
Fixpoint plain (v : value) : bool :=
  match v with
  | VNone | VBool _ | VInt _ | VFloat _ => true
  | VStr s => negb (startswith s "$binary:")
  | VList elems =>
      (fix all (l : list value) : bool :=
         match l with
         | [] => true
         | x :: t => plain x && all t
         end) elems
  | VDict items =>
      negb (tagged items) &&
      (fix all (l : list (string * value)) : bool :=
         match l with
         | [] => true
         | (_, x) :: t => plain x && all t
         end) items
  | _ => false
  end.

(** No mapping of the tree has the key [Content]. *)
Fixpoint content_free (v : value) : bool :=
  match v with
  | VList elems =>
      (fix all (l : list value) : bool :=
         match l with
         | [] => true
         | x :: t => content_free x && all t
         end) elems
  | VDict items =>
      negb (dict_has "Content" items) &&
      (fix all (l : list (string * value)) : bool :=
         match l with
         | [] => true
         | (_, x) :: t => content_free x && all t
         end) items
  | _ => true
  end.

(** What the rule of a tag key returns: a blob of subtype 0, an object
    identifier, a reference to one, a timestamp or a decimal. *)
Definition special (d : value) : Prop :=
  match d with
  | VBinary _ subtype => subtype = 0%Z
  | VObjectId _ | VTimestamp _ _ | VDecimal128 _ _ => True
  | VDBRef _ (VObjectId _) None => True
  | _ => False
  end.

(** A JSON document with a tagged value of each kind, and the tree that
    the decoder builds from it. *)
Definition sample_json : value :=
  VDict [("_id", VDict [("$oid", VStr "654af03c9d1e2b0017a45c01")]);
         ("blob", VDict [("$binary", VStr "QUJD")]);
         ("at", VDict [("$timestamp", VDict [("t", VInt 1700000000); ("i", VInt 1)])]);
         ("price", VDict [("$numberDecimal", VStr "0")]);
         ("legacy", VStr "$binary:QUJD");
         ("tags", VList [VStr "hat"; VInt 3; VNone])].

Definition sample_decoded : value :=
  VDict [("_id", VObjectId sample_oid);
         ("blob", VBinary [x41; x42; x43] 0);
         ("at", VTimestamp 1700000000 1);
         ("price", VDecimal128 DECIMAL_ZERO_HIGH 0);
         ("legacy", VBinary [x41; x42; x43] 0);
         ("tags", VList [VStr "hat"; VInt 3; VNone])].

(** A JSON document without any tag. *)
Definition sample_plain : value :=
  VDict [("Name", VStr "wardrobe");
         ("Sizes", VList [VInt 1; VInt 2; VFloat 0]);
         ("Owner", VDict [("$ref", VStr "users"); ("Active", VBool true)])].

(** The exception that the condition of the comprehension raises on an
    element, if any: [AttributeError] when the element is no mapping (it
    has no [get]), [TypeError] when its [AssetName] is null, a boolean or a
    number (the [in] test needs a string, a list or a dict). *)
Definition offending (elem : value) : option exn :=
  match elem with
  | VDict d =>
      match dict_get "AssetName" d with
      | None | Some (VStr _) | Some (VList _) | Some (VDict _) => None
      | Some _ => Some TypeError
      end
  | _ => Some AttributeError
  end.

(** The elements on which the condition of the comprehension holds. *)
Definition passes (search_key : string) (elem : value) : bool :=
  match keep_elem search_key elem with
  | inr true => true
  | _ => false
  end.

(** A payload object that has no list under [Elements]. *)
Definition without_elements (d : list (string * value)) : bool :=
  match dict_get "Elements" d with
  | Some (VList _) => false
  | _ => true
  end.

(** A text layer that knows two more payloads: [BROKEN], whose second
    element is null, and [BARE], an object without [Elements]. *)
Definition sample_reader (text : string) : result value :=
  if String.eqb text "BROKEN" then
    ret (VDict [("Elements", VList [green_hat; VNone; red_pet_hat])])
  else if String.eqb text "BARE" then ret (VDict [("Name", VStr "wardrobe")])
  else sample_loads text.

(** ** The rest of [bson_to_json.py] *)

(** The text before and after the last separator of a string, if it has
    one. *)
Fixpoint rpartition (sep : ascii) (s : string) : option (string * string) :=
  match s with
  | EmptyString => None
  | String c rest =>
      match rpartition sep rest with
      | Some (before, after) => Some (String c before, after)
      | None => if Ascii.eqb c sep then Some (EmptyString, rest) else None
      end
  end.

(** [s.rsplit(sep, 1)] for a one-character separator. *)
Definition rsplit1 (sep : ascii) (s : string) : list string :=
  match rpartition sep s with
  | Some (before, after) => [before; after]
  | None => [s]
  end.

Definition generate_default_output_name (bson_file_path : string) : string :=
  let base_name := nth 0 (rsplit1 "." bson_file_path) EmptyString in
  base_name ++ ".json".

(** The choice of [main]:
    [args.output if args.output else generate_default_output_name(args.file)];
    an option that was not given is [None], and the empty string is false. *)
Definition main_output_name (output : option string) (file : string) : string :=
  match output with
  | Some (String c rest) => String c rest
  | _ => generate_default_output_name file
  end.

(** The string has no character [sep]. *)
Fixpoint char_free (sep : ascii) (s : string) : bool :=
  match s with
  | EmptyString => true
  | String c rest => negb (Ascii.eqb c sep) && char_free sep rest
  end.

(** The line typed at the prompt is kept as the list of its code points,
    since [strip] depends on them.  [c.isspace()] holds of the ASCII white
    space, the four separators 28 to 31, the next-line character, the
    no-break space and the space characters of the higher planes. *)
Definition isspace (c : N) : bool :=
  (((9 <=? c) && (c <=? 13)) || ((28 <=? c) && (c <=? 32))
   || (c =? 133) || (c =? 160) || (c =? 5760)
   || ((8192 <=? c) && (c <=? 8202))
   || (c =? 8232) || (c =? 8233) || (c =? 8239) || (c =? 8287)
   || (c =? 12288))%N.

(** [s.lstrip()], [s.rstrip()] and [s.strip()] *)
Fixpoint lstrip (s : list N) : list N :=
  match s with
  | [] => []
  | c :: rest => if isspace c then lstrip rest else s
  end.

Fixpoint rstrip (s : list N) : list N :=
  match s with
  | [] => []
  | c :: rest =>
      match rstrip rest with
      | [] => if isspace c then [] else [c]
      | kept => c :: kept
      end
  end.

Definition strip (s : list N) : list N := rstrip (lstrip s).

(** The code points of [y] and [Y]. *)
Definition SMALL_Y : N := 121.
Definition CAPITAL_Y : N := 89.

(** [a != b] for two strings. *)
Definition differs (a b : list N) : bool :=
  if list_eq_dec N.eq_dec a b then false else true.

(** What a run of [bson_to_json] does to the output file: it is not
    touched, it is opened for writing (its content is gone) and the dump
    does not complete, or it holds the JSON value. *)
Inductive output_state : Type :=
| Kept
| Opened
| Written (J : value).

Record json_run : Type := JsonRun {
  asked : bool;
  output : output_state;
  failure : option exn
}.

Section BsonToJson.

Variable py_repr : value -> string.
Variable Decimal128_str : Z -> Z -> string.
Variable bson_decode_all : list byte -> result (list value).

(** Lines 84-118: the bytes are read and decoded (twice when validation is
    asked for), the decoded data is converted, and only then is the output
    opened and the dump written into it. *)
Definition convert_and_write (asked : bool) (read : result (list byte))
           (validate : bool) : json_run :=
  match read with
  | inl e => JsonRun asked Kept (Some e)
  | inr bson_data =>
      let decode :=
        match bson_decode_all bson_data with
        | inl e => if is_BSONError e then raise ValueError else raise e
        | inr decoded_data => ret decoded_data
        end in
      match (_ <- (if validate then decode else ret []) ;; decode) with
      | inl e => JsonRun asked Kept (Some e)
      | inr decoded_data =>
          let converted_data := convert_bson_to_json (VList decoded_data) in
          match json_dump py_repr Decimal128_str converted_data with
          | inl e => JsonRun asked Opened (Some e)
          | inr J => JsonRun asked (Written J) None
          end
      end
  end.

(** [s.lower()], the case mapping of the library, left abstract. *)
Variable str_lower : list N -> list N.

(** [bson_to_json] as a whole, given whether the output path exists, the
    line that the user types when asked, and what reading the input
    produces.  Opening the output is taken to succeed. *)
Definition bson_to_json_run (output_exists overwrite : bool) (user_input : list N)
           (read : result (list byte)) (validate : bool) : json_run :=
  if output_exists && negb overwrite then
    if differs (str_lower (strip user_input)) [SMALL_Y] then JsonRun true Kept None
    else convert_and_write true read validate
  else convert_and_write false read validate.

End BsonToJson.

(** ** [b64_from_link_noprops.py] *)

(** What [open] and [read] of [convert_file_to_base64] produce: the
    content, [FileNotFoundError], or another exception with its text. *)
Inductive file_read : Type :=
| FileContent (file_content : list byte)
| FileNotFound
| ReadFailed (text : string).

(** ['=' * n] *)
Fixpoint pad (n : nat) : string :=
  match n with
  | O => EmptyString
  | S m => String "=" (pad m)
  end.

Definition convert_file_to_base64 (read : file_read) : string :=
  match read with
  | FileContent file_content =>
      let base64_string := Base64.b64encode file_content in
      let padding_needed := (String.length base64_string mod 4)%nat in
      match padding_needed with
      | O => base64_string
      | _ => base64_string ++ pad (4 - padding_needed)
      end
  | FileNotFound => "File not found. Please check the file path."
  | ReadFailed text => "An error occurred: " ++ text
  end.

(** [os.path.join(a, b)] of [posixpath]. *)
Definition path_join (a b : string) : string :=
  if startswith b "/" then b
  else if String.eqb a EmptyString || String.eqb (substring (String.length a - 1) 1 a) "/"
       then a ++ b
       else a ++ "/" ++ b.

(** The path that [download_content] writes to:
    [os.path.join('data', url.split("/")[-1])]. *)
Definition download_path (url : string) : string :=
  let file_name := last (split "/" url) EmptyString in
  path_join "data" file_name.

(** A line that the prompt of [bson_to_json] accepts as a yes: [y] or [Y]
    with white space around it. *)
Definition all_space (s : list N) : bool := forallb isspace s.

Definition says_yes (user_input : list N) : Prop :=
  exists before after c,
    all_space before = true /\ all_space after = true
    /\ (c = SMALL_Y \/ c = CAPITAL_Y)
    /\ user_input = before ++ c :: after.

(** What the run needs of [str.lower]: only [y] and [Y] are lowered to
    [y]. *)
Definition lowers_to_y (str_lower : list N -> list N) : Prop :=
  forall s, str_lower s = [SMALL_Y] <-> s = [SMALL_Y] \/ s = [CAPITAL_Y].

(** The case mapping on the ASCII capitals alone, for the examples. *)
Definition ascii_lower (s : list N) : list N :=
  map (fun c => if ((65 <=? c) && (c <=? 90))%N then (c + 32)%N else c) s.

(** A [bson] layer for the decode direction: no bytes hold no document, a
    single byte is refused, and any longer stream is read as
    [dated_documents]. *)
Definition dated_bson_decode_all (stream : list byte) : result (list value) :=
  match stream with
  | [] => ret []
  | [_] => raise InvalidBSON
  | _ => ret dated_documents
  end.

(** Elements whose [AssetName] is no string: null, the empty list, and a
    list that holds the substring of the example. *)
Definition nameless_hat : value :=
  VDict [("AssetName", VNone); ("InventoryId", VNone)].
Definition listed_hat : value :=
  VDict [("AssetName", VList []); ("InventoryId", VNone)].
Definition pet_list_hat : value :=
  VDict [("AssetName", VList [VStr "pet"]); ("InventoryId", VNone)].

(** A text layer that knows two more payloads: [NAMELESS], whose second
    element has a null name, and [LISTED], whose element has the empty list
    as its name. *)
Definition odd_names_reader (text : string) : result value :=
  if String.eqb text "NAMELESS" then
    ret (VDict [("Elements", VList [green_hat; nameless_hat])])
  else if String.eqb text "LISTED" then
    ret (VDict [("Elements", VList [listed_hat])])
  else sample_loads text.

(** ** The byte streams of the sequence round trip *)

(** The stream is what [bson.encode] writes for the documents, record
    after record. *)
Definition written_by (bson_encode : value -> result (list byte))
           (docs : list value) (stream : list byte) : Prop :=
  exists records,
    Forall2 (fun d r => bson_encode d = inr r) docs records
    /\ stream = List.concat records.

(** A stream that [bson.decode_all] decodes to [dated_documents] is not
    converted, whatever the library does elsewhere: the output is opened
    and the dump raises. *)
Definition dated_stream_is_refused : Prop :=
  forall py_repr Decimal128_str bson_decode_all asked stream validate,
    bson_decode_all stream = inr dated_documents ->
    convert_and_write py_repr Decimal128_str bson_decode_all asked (inr stream) validate
    = JsonRun asked Opened (Some TypeError).

(** A [bson] layer that knows two documents: the empty one, and the one
    whose only field is [_id], an object identifier.  The record of the
    second is its length 22, the element type 7, the name [_id] with its
    terminator, the 12 bytes of the identifier and the terminator of the
    document. *)
Definition ID_RECORD_HEAD : list byte :=
  [x16; x00; x00; x00; x07; x5f; x69; x64; x00].

Definition id_bson_encode (doc : value) : result (list byte) :=
  match doc with
  | VDict [] => ret EMPTY_RECORD
  | VDict [(k, VObjectId b)] =>
      if String.eqb k "_id" && (List.length b =? 12)%nat
      then ret (ID_RECORD_HEAD ++ b ++ [x00])
      else raise InvalidDocument
  | _ => raise InvalidDocument
  end.

Fixpoint starts_with (prefix stream : list byte) : bool :=
  match prefix, stream with
  | [], _ => true
  | p :: prefix', b :: stream' => Byte.eqb p b && starts_with prefix' stream'
  | _ :: _, [] => false
  end.

Fixpoint id_bson_decode_records (fuel : nat) (stream : list byte)
  : result (list value) :=
  match stream with
  | [] => ret []
  | _ :: _ =>
      match fuel with
      | O => raise InvalidBSON
      | S fuel' =>
          if starts_with EMPTY_RECORD stream then
            docs <- id_bson_decode_records fuel' (skipn 5 stream) ;;
            ret (VDict [] :: docs)
          else if starts_with ID_RECORD_HEAD stream
                  && starts_with [x00] (skipn 21 stream) then
            docs <- id_bson_decode_records fuel' (skipn 22 stream) ;;
            ret (VDict [("_id", VObjectId (firstn 12 (skipn 9 stream)))] :: docs)
          else raise InvalidBSON
      end
  end.

Definition id_bson_decode_all (stream : list byte) : result (list value) :=
  id_bson_decode_records (List.length stream) stream.

(** A stream of three documents, the second with an identifier. *)
Definition three_documents : list value :=
  [VDict []; VDict [("_id", VObjectId sample_oid)]; VDict []].

Definition three_document_stream : list byte :=
  EMPTY_RECORD ++ (ID_RECORD_HEAD ++ sample_oid ++ [x00]) ++ EMPTY_RECORD.

(** * Properties *)

(** ** The library functions on small inputs *)

Example b64encode_four_bytes :
  Base64.b64encode [x41; x42; x43; x44] = "QUJDRA==".
Proof. reflexivity. Qed.

Example a2b_base64_padded :
  Base64.a2b_base64 "QUJDRA==" = inr [x41; x42; x43; x44].
Proof. reflexivity. Qed.

Example a2b_base64_incorrect_padding :
  Base64.a2b_base64 "abc" = inl BinasciiError.
Proof. reflexivity. Qed.

Example a2b_base64_skips_other_characters :
  Base64.a2b_base64 "QU JD!" = inr [x41; x42; x43].
Proof. reflexivity. Qed.

Example split_on_colons :
  split ":" "$binary:QUJD:eHl6" = ["$binary"; "QUJD"; "eHl6"].
Proof. reflexivity. Qed.

Example split_without_separator : split ":" "QUJD" = ["QUJD"].
Proof. reflexivity. Qed.

Example str_contains_is_case_sensitive :
  str_contains "red_pet_hat" "pet" = true /\ str_contains "red_Pet_hat" "pet" = false.
Proof. split; reflexivity. Qed.

Example ObjectId_new_reads_either_case :
  ObjectId_new [] (VStr "654AF03C9d1e2b0017a45c01") = inr (VObjectId sample_oid).
Proof. reflexivity. Qed.

Example dict_set_keeps_the_place :
  dict_set "b" (VInt 9) [("a", VInt 1); ("b", VInt 2); ("c", VInt 3)]
  = [("a", VInt 1); ("b", VInt 9); ("c", VInt 3)].
Proof. reflexivity. Qed.

(** ** Base64 *)

Module Base64Facts.
Import Base64.

Lemma below_forallb (P : N -> bool) (k : nat) :
  forallb P (map N.of_nat (seq 0 k)) = true ->
  forall n, (n < N.of_nat k)%N -> P n = true.
Proof.
  intros H n Hn.
  rewrite forallb_forall in H. apply H.
  rewrite <- (N2Nat.id n). apply in_map. apply in_seq. lia.
Qed.

Lemma below_forallb2 (P : N -> N -> bool) (k : nat) :
  forallb (fun a => forallb (P a) (map N.of_nat (seq 0 k)))
    (map N.of_nat (seq 0 k)) = true ->
  forall a b, (a < N.of_nat k)%N -> (b < N.of_nat k)%N -> P a b = true.
Proof.
  intros H a b Ha Hb.
  apply (below_forallb (P a) k); [|exact Hb].
  apply (below_forallb (fun a => forallb (P a) (map N.of_nat (seq 0 k))) k H a Ha).
Qed.

Lemma table_inverse n :
  (n < 64)%N ->
  table_a2b_base64 (table_b2a_base64 n) = Some n
  /\ Ascii.eqb (table_b2a_base64 n) BASE64_PAD = false.
Proof.
  intros Hn.
  pose (P := fun n => match table_a2b_base64 (table_b2a_base64 n) with
                      | Some m => N.eqb m n
                      | None => false
                      end && negb (Ascii.eqb (table_b2a_base64 n) BASE64_PAD)).
  assert (HP : P n = true).
  { apply (below_forallb P 64); [vm_compute; reflexivity | exact Hn]. }
  unfold P in HP. apply andb_true_iff in HP. destruct HP as [H1 H2].
  destruct (table_a2b_base64 (table_b2a_base64 n)) as [m|]; [|discriminate].
  apply N.eqb_eq in H1. subst m. split; [reflexivity|].
  now apply negb_true_iff in H2.
Qed.

Lemma byte_of_to_N b : byte_of_N (Byte.to_N b) = b.
Proof.
  unfold byte_of_N. pose proof (Byte.to_N_bounded b).
  rewrite N.mod_small by lia. now rewrite Byte.of_to_N.
Qed.

(** The first two characters of a group carry the first byte. *)
Lemma quad_first n1 n2 :
  (n1 < 256)%N -> (n2 < 256)%N ->
  let s1 := N.shiftr n1 2 in
  let s2 := N.lor (N.shiftl (N.land n1 3) 4) (N.shiftr n2 4) in
  (s1 < 64)%N /\ (s2 < 64)%N
  /\ N.lor (N.shiftl s1 2) (N.shiftr s2 4) = n1
  /\ N.land s2 15 = N.shiftr n2 4.
Proof.
  intros H1 H2.
  pose (P := fun n1 n2 =>
    let s1 := N.shiftr n1 2 in
    let s2 := N.lor (N.shiftl (N.land n1 3) 4) (N.shiftr n2 4) in
    (s1 <? 64)%N && (s2 <? 64)%N
    && (N.lor (N.shiftl s1 2) (N.shiftr s2 4) =? n1)%N
    && (N.land s2 15 =? N.shiftr n2 4)%N).
  assert (HP : P n1 n2 = true).
  { apply (below_forallb2 P 256); [vm_compute; reflexivity | exact H1 | exact H2]. }
  unfold P in HP. cbv zeta in *.
  repeat (apply andb_true_iff in HP; destruct HP as [HP ?]).
  repeat split; try (now apply N.ltb_lt); now apply N.eqb_eq.
Qed.

Lemma quad_second n2 n3 :
  (n2 < 256)%N -> (n3 < 256)%N ->
  let s3 := N.lor (N.shiftl (N.land n2 15) 2) (N.shiftr n3 6) in
  let s4 := N.land n3 63 in
  (s3 < 64)%N /\ (s4 < 64)%N
  /\ N.lor (N.shiftl (N.shiftr n2 4) 4) (N.shiftr s3 2) = n2
  /\ N.lor (N.shiftl (N.land s3 3) 6) s4 = n3.
Proof.
  intros H1 H2.
  pose (P := fun n2 n3 =>
    let s3 := N.lor (N.shiftl (N.land n2 15) 2) (N.shiftr n3 6) in
    let s4 := N.land n3 63 in
    (s3 <? 64)%N && (s4 <? 64)%N
    && (N.lor (N.shiftl (N.shiftr n2 4) 4) (N.shiftr s3 2) =? n2)%N
    && (N.lor (N.shiftl (N.land s3 3) 6) s4 =? n3)%N).
  assert (HP : P n2 n3 = true).
  { apply (below_forallb2 P 256); [vm_compute; reflexivity | exact H1 | exact H2]. }
  unfold P in HP. cbv zeta in *.
  repeat (apply andb_true_iff in HP; destruct HP as [HP ?]).
  repeat split; try (now apply N.ltb_lt); now apply N.eqb_eq.
Qed.

Lemma quad_first_tail n1 :
  (n1 < 256)%N ->
  (N.shiftr n1 2 < 64)%N /\ (N.shiftl (N.land n1 3) 4 < 64)%N
  /\ N.lor (N.shiftl (N.shiftr n1 2) 2) (N.shiftr (N.shiftl (N.land n1 3) 4) 4) = n1.
Proof.
  intros H1.
  destruct (quad_first n1 0 H1 eq_refl) as (Hs1 & Hs2 & Ho1 & _).
  cbv zeta in *. change (N.shiftr 0 4) with 0%N in *.
  rewrite N.lor_0_r in Hs2, Ho1. auto.
Qed.

Lemma quad_second_tail n2 :
  (n2 < 256)%N ->
  (N.shiftl (N.land n2 15) 2 < 64)%N
  /\ N.lor (N.shiftl (N.shiftr n2 4) 4) (N.shiftr (N.shiftl (N.land n2 15) 2) 2) = n2.
Proof.
  intros H2.
  destruct (quad_second n2 0 H2 eq_refl) as (Hs3 & _ & Ho2 & _).
  cbv zeta in *. change (N.shiftr 0 6) with 0%N in *.
  rewrite N.lor_0_r in Hs3, Ho2. auto.
Qed.

Lemma a2b_loop_data c s rest q lc p acc :
  table_a2b_base64 c = Some s ->
  Ascii.eqb c BASE64_PAD = false ->
  a2b_loop (String c rest) q lc p acc =
  match q with
  | 0%nat => a2b_loop rest 1 s 0 acc
  | 1%nat =>
      a2b_loop rest 2 (N.land s 15) 0
        (byte_of_N (N.lor (N.shiftl lc 2) (N.shiftr s 4)) :: acc)
  | 2%nat =>
      a2b_loop rest 3 (N.land s 3) 0
        (byte_of_N (N.lor (N.shiftl lc 4) (N.shiftr s 2)) :: acc)
  | _ => a2b_loop rest 0 0 0 (byte_of_N (N.lor (N.shiftl lc 6) s) :: acc)
  end.
Proof.
  intros Ht Hp. cbn [a2b_loop]. rewrite Hp, Ht. reflexivity.
Qed.

Lemma a2b_loop_sextet s rest q lc p acc :
  (s < 64)%N ->
  a2b_loop (String (table_b2a_base64 s) rest) q lc p acc =
  match q with
  | 0%nat => a2b_loop rest 1 s 0 acc
  | 1%nat =>
      a2b_loop rest 2 (N.land s 15) 0
        (byte_of_N (N.lor (N.shiftl lc 2) (N.shiftr s 4)) :: acc)
  | 2%nat =>
      a2b_loop rest 3 (N.land s 3) 0
        (byte_of_N (N.lor (N.shiftl lc 4) (N.shiftr s 2)) :: acc)
  | _ => a2b_loop rest 0 0 0 (byte_of_N (N.lor (N.shiftl lc 6) s) :: acc)
  end.
Proof.
  intros Hs. destruct (table_inverse s Hs) as [Ht Hp].
  now apply a2b_loop_data.
Qed.

Lemma list_ind3 {A : Type} (P : list A -> Prop) :
  P [] -> (forall a, P [a]) -> (forall a b, P [a; b]) ->
  (forall a b c l, P l -> P (a :: b :: c :: l)) ->
  forall l, P l.
Proof.
  intros H0 H1 H2 H3. fix IH 1.
  intros [|a [|b [|c l]]].
  - exact H0.
  - apply H1.
  - apply H2.
  - apply H3, IH.
Qed.

Lemma to_N_lt b : (Byte.to_N b < 256)%N.
Proof. pose proof (Byte.to_N_bounded b). lia. Qed.

Lemma a2b_loop_b64encode data :
  forall acc, a2b_loop (b64encode data) 0 0 0 acc = inr (rev acc ++ data).
Proof.
  induction data as [|b1|b1 b2|b1 b2 b3 rest IH] using list_ind3; intros acc.
  - cbn. now rewrite app_nil_r.
  - cbn [b64encode].
    destruct (quad_first_tail (Byte.to_N b1) (to_N_lt b1)) as (Hs1 & Hs2 & Ho1).
    rewrite (a2b_loop_sextet _ _ 0 _ _ _ Hs1).
    rewrite (a2b_loop_sextet _ _ 1 _ _ _ Hs2).
    rewrite Ho1, byte_of_to_N. cbn. now rewrite <- ?app_assoc.
  - cbn [b64encode].
    destruct (quad_first (Byte.to_N b1) (Byte.to_N b2) (to_N_lt b1) (to_N_lt b2))
      as (Hs1 & Hs2 & Ho1 & Hl2).
    destruct (quad_second_tail (Byte.to_N b2) (to_N_lt b2)) as (Hs3 & Ho2).
    rewrite (a2b_loop_sextet _ _ 0 _ _ _ Hs1).
    rewrite (a2b_loop_sextet _ _ 1 _ _ _ Hs2).
    rewrite (a2b_loop_sextet _ _ 2 _ _ _ Hs3).
    rewrite Ho1, Hl2, Ho2, !byte_of_to_N. cbn. now rewrite <- ?app_assoc.
  - cbn [b64encode].
    destruct (quad_first (Byte.to_N b1) (Byte.to_N b2) (to_N_lt b1) (to_N_lt b2))
      as (Hs1 & Hs2 & Ho1 & Hl2).
    destruct (quad_second (Byte.to_N b2) (Byte.to_N b3) (to_N_lt b2) (to_N_lt b3))
      as (Hs3 & Hs4 & Ho2 & Ho3).
    rewrite (a2b_loop_sextet _ _ 0 _ _ _ Hs1).
    rewrite (a2b_loop_sextet _ _ 1 _ _ _ Hs2).
    rewrite (a2b_loop_sextet _ _ 2 _ _ _ Hs3).
    rewrite (a2b_loop_sextet _ _ 3 _ _ _ Hs4).
    rewrite Ho1, Hl2, Ho2, Ho3, !byte_of_to_N, IH. cbn. now rewrite <- ?app_assoc.
Qed.

(** Decoding what [b64encode] produced gives the bytes back. *)
Lemma a2b_b64encode data : a2b_base64 (b64encode data) = inr data.
Proof. unfold a2b_base64. now rewrite a2b_loop_b64encode. Qed.

(** [b64encode] produces ASCII. *)
Lemma table_b2a_ascii n : (n < 64)%N -> (N_of_ascii (table_b2a_base64 n) <? 128)%N = true.
Proof.
  intros Hn.
  apply (below_forallb (fun n => (N_of_ascii (table_b2a_base64 n) <? 128)%N) 64);
    [vm_compute; reflexivity | exact Hn].
Qed.

Lemma b64encode_isascii data : isascii (b64encode data) = true.
Proof.
  induction data as [|b1|b1 b2|b1 b2 b3 rest IH] using list_ind3.
  - reflexivity.
  - cbn [b64encode isascii].
    destruct (quad_first_tail (Byte.to_N b1) (to_N_lt b1)) as (Hs1 & Hs2 & _).
    now rewrite !table_b2a_ascii.
  - cbn [b64encode isascii].
    destruct (quad_first (Byte.to_N b1) (Byte.to_N b2) (to_N_lt b1) (to_N_lt b2))
      as (Hs1 & Hs2 & _ & _).
    destruct (quad_second_tail (Byte.to_N b2) (to_N_lt b2)) as (Hs3 & _).
    now rewrite !table_b2a_ascii.
  - cbn [b64encode isascii].
    destruct (quad_first (Byte.to_N b1) (Byte.to_N b2) (to_N_lt b1) (to_N_lt b2))
      as (Hs1 & Hs2 & _ & _).
    destruct (quad_second (Byte.to_N b2) (Byte.to_N b3) (to_N_lt b2) (to_N_lt b3))
      as (Hs3 & Hs4 & _ & _).
    now rewrite !table_b2a_ascii, IH.
Qed.

End Base64Facts.

(** ** Object identifiers *)

Module ObjectIdFacts.
Import ObjectIdLib.

Lemma hex_pair n :
  (n < 256)%N ->
  hex_value (hex_digit (N.shiftr n 4)) = Some (N.shiftr n 4)
  /\ hex_value (hex_digit (N.land n 15)) = Some (N.land n 15)
  /\ N.lor (N.shiftl (N.shiftr n 4) 4) (N.land n 15) = n.
Proof.
  intros Hn.
  pose (P := fun n =>
    match hex_value (hex_digit (N.shiftr n 4)),
          hex_value (hex_digit (N.land n 15)) with
    | Some h, Some l =>
        (h =? N.shiftr n 4)%N && (l =? N.land n 15)%N
        && (N.lor (N.shiftl (N.shiftr n 4) 4) (N.land n 15) =? n)%N
    | _, _ => false
    end).
  assert (HP : P n = true).
  { apply (Base64Facts.below_forallb P 256); [vm_compute; reflexivity | exact Hn]. }
  unfold P in HP.
  destruct (hex_value (hex_digit (N.shiftr n 4))) as [h|]; [|discriminate].
  destruct (hex_value (hex_digit (N.land n 15))) as [l|]; [|discriminate].
  apply andb_true_iff in HP. destruct HP as [HP H3].
  apply andb_true_iff in HP. destruct HP as [H1 H2].
  apply N.eqb_eq in H1, H2, H3. subst. auto.
Qed.

(** A hexadecimal digit is no white space. *)
Lemma hex_value_no_space c h : hex_value c = Some h -> is_space c = false.
Proof.
  destruct c as [[] [] [] [] [] [] [] []]; vm_compute; intros H;
    first [reflexivity | discriminate H].
Qed.

Lemma fromhex_hexlify b : fromhex (hexlify b) = Some b.
Proof.
  induction b as [|x t IH]; [reflexivity|].
  cbn [hexlify fromhex].
  destruct (hex_pair (Byte.to_N x) (Base64Facts.to_N_lt x)) as (H1 & H2 & H3).
  rewrite (hex_value_no_space _ _ H1).
  now rewrite H1, H2, IH, H3, Base64Facts.byte_of_to_N.
Qed.

Lemma length_hexlify b : String.length (hexlify b) = (2 * List.length b)%nat.
Proof.
  induction b as [|x t IH]; [reflexivity|].
  cbn [hexlify String.length List.length]. rewrite IH. lia.
Qed.

End ObjectIdFacts.

(** ** Dicts and comprehensions *)

Lemma dict_has_keys k d d' :
  map fst d = map fst d' -> dict_has k d = dict_has k d'.
Proof.
  unfold dict_has. revert d'.
  induction d as [|[k1 v1] t IH]; intros [|[k2 v2] t'] H; try discriminate; auto.
  cbn in H. injection H as -> Ht. cbn.
  destruct (String.eqb k k2); [reflexivity | now apply IH].
Qed.

Lemma mapM_items_keys f items items' :
  mapM_items f items = inr items' -> map fst items' = map fst items.
Proof.
  unfold mapM_items. revert items'.
  induction items as [|[k v] t IH]; intros items' H; cbn in H.
  - injection H as <-. reflexivity.
  - destruct (f v) as [e|v']; [discriminate|]. cbn in H.
    destruct (mapM _ t) as [e|t']; [discriminate|]. cbn in H.
    injection H as <-. cbn. f_equal. now apply IH.
Qed.

(** ** The codec *)

Section CodecFacts.

Variable py_repr : value -> string.
Variable Decimal128_str : Z -> Z -> string.
Variable Decimal128_new : value -> result (Z * Z).
Variable ObjectId_generate : list byte.

Local Abbreviation decode := (convert_json_to_bson Decimal128_new ObjectId_generate) (only parsing).
Local Abbreviation encode := (encode py_repr Decimal128_str) (only parsing).
Local Abbreviation json_dump := (json_dump py_repr Decimal128_str) (only parsing).

(** *** The comprehensions, as [mapM] and [map] *)

Lemma decode_list elems :
  decode (VList elems) = (elems' <- mapM decode elems ;; ret (VList elems')).
Proof.
  cbn [convert_json_to_bson]. f_equal.
  induction elems as [|v t IH]; [reflexivity|].
  cbn [mapM]. now rewrite IH.
Qed.

Lemma decode_items items :
  tagged items = false ->
  decode (VDict items) = (items' <- mapM_items decode items ;; ret (VDict items')).
Proof.
  unfold tagged. intros H.
  repeat (apply orb_false_iff in H; destruct H as [H ?]).
  cbn [convert_json_to_bson].
  repeat match goal with E : _ = false |- _ => rewrite E; clear E end.
  f_equal. unfold mapM_items.
  induction items as [|[k v] t IH]; [reflexivity|].
  cbn [mapM fst snd]. rewrite IH.
  destruct (decode v); reflexivity.
Qed.

Lemma convert_bson_to_json_list elems :
  convert_bson_to_json (VList elems) = VList (map convert_bson_to_json elems).
Proof.
  reflexivity.
Qed.

Lemma convert_bson_to_json_dict items :
  convert_bson_to_json (VDict items) =
  VDict (map (fun kv => (fst kv, convert_bson_to_json (snd kv))) items).
Proof.
  cbn [convert_bson_to_json]. f_equal.
  induction items as [|[k v] t IH]; [reflexivity|]. cbn [map fst snd]. now rewrite IH.
Qed.

Lemma json_dump_list elems :
  json_dump (VList elems) = (elems' <- mapM json_dump elems ;; ret (VList elems')).
Proof.
  cbn [Model.json_dump]. f_equal.
  induction elems as [|v t IH]; [reflexivity|].
  cbn [mapM]. now rewrite IH.
Qed.

Lemma json_dump_dict items :
  json_dump (VDict items) =
  (items' <- mapM_items json_dump items ;; ret (VDict items')).
Proof.
  cbn [Model.json_dump]. f_equal. unfold mapM_items.
  induction items as [|[k v] t IH]; [reflexivity|].
  cbn [mapM fst snd]. rewrite IH.
  destruct (json_dump v); reflexivity.
Qed.

Lemma encode_list elems :
  encode (VList elems) = (elems' <- mapM encode elems ;; ret (VList elems')).
Proof.
  unfold Model.encode. rewrite convert_bson_to_json_list, json_dump_list.
  f_equal. induction elems as [|v t IH]; [reflexivity|].
  cbn [map mapM]. now rewrite IH.
Qed.

Lemma encode_dict items :
  encode (VDict items) = (items' <- mapM_items encode items ;; ret (VDict items')).
Proof.
  unfold Model.encode. rewrite convert_bson_to_json_dict, json_dump_dict.
  f_equal. unfold mapM_items.
  induction items as [|[k v] t IH]; [reflexivity|].
  cbn [map mapM fst snd]. now rewrite IH.
Qed.

Lemma canon_list elems : canon (VList elems) = VList (map canon elems).
Proof.
  reflexivity.
Qed.

Lemma canon_dict items :
  canon (VDict items) = VDict (map (fun kv => (fst kv, canon (snd kv))) items).
Proof.
  cbn [canon]. f_equal.
  induction items as [|[k v] t IH]; [reflexivity|]. cbn [map fst snd]. now rewrite IH.
Qed.

End CodecFacts.

Lemma tagged_keys d d' : map fst d = map fst d' -> tagged d = tagged d'.
Proof.
  intros H. unfold tagged.
  now rewrite !(dict_has_keys _ d d' H).
Qed.

Lemma mapM_compose (f g : value -> result value) (h : value -> value) l :
  Forall (fun v => exists j, f v = inr j /\ g j = inr (h v)) l ->
  exists js, mapM f l = inr js /\ mapM g js = inr (map h l).
Proof.
  induction 1 as [|v t (j & Hf & Hg) _ (js & Hfs & Hgs)].
  - exists []. split; reflexivity.
  - exists (j :: js). cbn [mapM map]. rewrite Hf, Hfs. cbn.
    rewrite Hg, Hgs. split; reflexivity.
Qed.

Lemma mapM_items_compose (f g : value -> result value) (h : value -> value) items :
  Forall (fun kv => exists j, f (snd kv) = inr j /\ g j = inr (h (snd kv))) items ->
  exists js, mapM_items f items = inr js
             /\ mapM_items g js = inr (map (fun kv => (fst kv, h (snd kv))) items).
Proof.
  unfold mapM_items.
  induction 1 as [|[k v] t (j & Hf & Hg) _ (js & Hfs & Hgs)].
  - exists []. split; reflexivity.
  - exists ((k, j) :: js). cbn [mapM map fst snd] in *. rewrite Hf, Hfs. cbn.
    rewrite Hg, Hgs. split; reflexivity.
Qed.

Section RoundTrip.

Variable py_repr : value -> string.
Variable Decimal128_str : Z -> Z -> string.
Variable Decimal128_new : value -> result (Z * Z).
Variable ObjectId_generate : list byte.

Local Abbreviation decode := (convert_json_to_bson Decimal128_new ObjectId_generate) (only parsing).
Local Abbreviation encode := (encode py_repr Decimal128_str) (only parsing).
Local Abbreviation representable := (representable Decimal128_str Decimal128_new) (only parsing).

Lemma representable_list elems :
  representable (VList elems) <-> Forall representable elems.
Proof.
  cbn [Model.representable].
  induction elems as [|v t IH].
  - split; auto.
  - split.
    + intros [Hv Ht]. constructor; [exact Hv | now apply IH].
    + intros H. inversion H; subst. split; [assumption | now apply IH].
Qed.

Lemma representable_dict items :
  representable (VDict items) <->
  tagged items = false /\ Forall (fun kv => representable (snd kv)) items.
Proof.
  cbn [Model.representable].
  enough (E : forall l,
             (fix all (l : list (string * value)) : Prop :=
                match l with
                | [] => True
                | (_, x) :: t => representable x /\ all t
                end) l <-> Forall (fun kv => representable (snd kv)) l).
  { rewrite (E items). reflexivity. }
  induction l as [|[k v] t IH].
  - split; auto.
  - split.
    + intros [Hv Ht]. constructor; [exact Hv | now apply IH].
    + intros H. inversion H; subst. split; [assumption | now apply IH].
Qed.

(** The tag form of a blob decodes to the blob, with subtype 0. *)
Lemma decode_binary_tag b :
  decode (VDict [("$binary", VStr (Base64.b64encode b))]) = inr (VBinary b 0).
Proof.
  cbn. rewrite Base64Facts.b64encode_isascii, Base64Facts.a2b_b64encode.
  reflexivity.
Qed.

(** A string of 24 hexadecimal digits written by [hexlify] is read back. *)
Lemma ObjectId_new_hexlify b :
  List.length b = 12%nat ->
  ObjectId_new ObjectId_generate (VStr (ObjectIdLib.hexlify b)) = inr (VObjectId b).
Proof.
  intros Hb. cbn [ObjectId_new].
  rewrite ObjectIdFacts.length_hexlify, Hb. cbn.
  now rewrite ObjectIdFacts.fromhex_hexlify.
Qed.

(** Every representable document is encoded, and its encoding decodes to
    the document itself, up to binary-native equality. *)
Lemma roundtrip_representable D :
  representable D ->
  exists J, encode D = inr J /\ decode J = inr (canon D).
Proof.
  induction D using value_induction; intros HD.
  - exists VNone. split; reflexivity.
  - exists (VBool b). split; reflexivity.
  - exists (VInt n). split; reflexivity.
  - exists (VFloat f). split; reflexivity.
  - exists (VStr s). split; [reflexivity|].
    cbn in HD |- *. now rewrite HD.
  - eexists. split; [reflexivity|]. apply decode_binary_tag.
  - cbn in HD. subst st. eexists. split; [reflexivity|]. apply decode_binary_tag.
  - cbn in HD. eexists. split; [reflexivity|].
    cbn. now apply ObjectId_new_hexlify.
  - cbn in HD. destruct HD as [Hid ->].
    destruct D; try contradiction.
    eexists. split; [reflexivity|].
    cbn [convert_json_to_bson dict_has dict_get String.eqb Ascii.eqb Bool.eqb
         andb getitem bind ret py_str].
    rewrite (ObjectId_new_hexlify _ Hid). reflexivity.
  - cbn in HD. destruct HD as [Ht Hi].
    eexists. split; [reflexivity|].
    cbn [convert_json_to_bson dict_has dict_get String.eqb Ascii.eqb Bool.eqb
         andb getitem bind ret Timestamp_new as_int].
    unfold UPPERBOUND in *.
    replace ((0 <=? t)%Z && (t <? 4294967296)%Z) with true
      by (symmetry; apply andb_true_iff; split; [apply Z.leb_le | apply Z.ltb_lt]; lia).
    replace ((0 <=? i)%Z && (i <? 4294967296)%Z) with true
      by (symmetry; apply andb_true_iff; split; [apply Z.leb_le | apply Z.ltb_lt]; lia).
    reflexivity.
  - cbn in HD. eexists. split; [reflexivity|].
    cbn [convert_json_to_bson dict_has dict_get String.eqb Ascii.eqb Bool.eqb
         andb getitem bind ret].
    rewrite HD. reflexivity.
  - contradiction.
  - apply representable_list in HD.
    assert (Hall : Forall (fun v => exists j, encode v = inr j /\ decode j = inr (canon v)) l).
    { rewrite Forall_forall in *. intros v Hv. apply H; auto. }
    destruct (mapM_compose _ _ _ _ Hall) as (js & Henc & Hdec).
    exists (VList js). rewrite encode_list, Henc. split; [reflexivity|].
    rewrite decode_list, Hdec. reflexivity.
  - apply representable_dict in HD. destruct HD as [Htag Hitems].
    assert (Hall : Forall (fun kv => exists j, encode (snd kv) = inr j
                                               /\ decode j = inr (canon (snd kv))) d).
    { rewrite Forall_forall in *. intros kv Hkv. apply H; auto. }
    destruct (mapM_items_compose _ _ _ _ Hall) as (js & Henc & Hdec).
    exists (VDict js). rewrite encode_dict, Henc. split; [reflexivity|].
    rewrite decode_items, Hdec.
    + now rewrite canon_dict.
    + rewrite (tagged_keys js d); [exact Htag|].
      now apply mapM_items_keys with (f := encode).
Qed.

End RoundTrip.

(** ** The encode direction *)

Section EncodeProperties.

Variable py_repr : value -> string.
Variable Decimal128_str : Z -> Z -> string.

Local Abbreviation encode := (encode py_repr Decimal128_str) (only parsing).

(** C7.  The encode direction maps every special value to its tag form (a
    [Binary] of any subtype and raw [bytes] to the [$binary] mapping, an
    [ObjectId] to [$oid], a [DBRef] to [$ref] and [$id], a [Timestamp] to
    [$timestamp] with [t] and [i], a [Decimal128] to [$numberDecimal]),
    returns null, booleans, numbers and strings unchanged, and encodes a
    sequence element by element and a mapping value by value, keeping the
    keys and the order. *)
Theorem encode_maps_special_values_to_tags :
  (forall b subtype,
      encode (VBinary b subtype) = inr (VDict [("$binary", VStr (Base64.b64encode b))]))
  /\ (forall b, encode (VBytes b) = inr (VDict [("$binary", VStr (Base64.b64encode b))]))
  /\ (forall b, encode (VObjectId b) = inr (VDict [("$oid", VStr (ObjectIdLib.hexlify b))]))
  /\ (forall collection id database,
         encode (VDBRef collection id database)
         = inr (VDict [("$ref", VStr collection); ("$id", VStr (py_str py_repr id))]))
  /\ (forall t i,
         encode (VTimestamp t i)
         = inr (VDict [("$timestamp", VDict [("t", VInt t); ("i", VInt i)])]))
  /\ (forall high low,
         encode (VDecimal128 high low)
         = inr (VDict [("$numberDecimal", VStr (Decimal128_str high low))]))
  /\ encode VNone = inr VNone
  /\ (forall b, encode (VBool b) = inr (VBool b))
  /\ (forall n, encode (VInt n) = inr (VInt n))
  /\ (forall f, encode (VFloat f) = inr (VFloat f))
  /\ (forall s, encode (VStr s) = inr (VStr s))
  /\ (forall elems,
         encode (VList elems) = (elems' <- mapM encode elems ;; ret (VList elems')))
  /\ (forall items,
         encode (VDict items) = (items' <- mapM_items encode items ;; ret (VDict items'))).
Proof.
  repeat split; try reflexivity.
  - apply encode_list.
  - apply encode_dict.
Qed.

End EncodeProperties.

(** ** The decode direction *)

Lemma dict_has_get k d v : dict_get k d = Some v -> dict_has k d = true.
Proof. unfold dict_has. now intros ->. Qed.

Lemma string_ind2 (P : string -> Prop) :
  P EmptyString ->
  (forall c, P (String c EmptyString)) ->
  (forall c1 c2 rest, P rest -> P (String c1 (String c2 rest))) ->
  forall s, P s.
Proof.
  intros H0 H1 H2. fix IH 1.
  intros [|c1 [|c2 rest]].
  - exact H0.
  - apply H1.
  - apply H2, IH.
Qed.

Lemma string_strong_ind (P : string -> Prop) :
  (forall s, (forall t, (String.length t < String.length s)%nat -> P t) -> P s) ->
  forall s, P s.
Proof.
  intros H s.
  assert (E : forall n t, (String.length t < n)%nat -> P t).
  { induction n as [|n IH]; intros t Ht; [lia|].
    apply H. intros u Hu. apply IH. lia. }
  apply (E (S (String.length s))). lia.
Qed.

(** [fromhex] reads exactly the strings of [spaced_hex]. *)
Lemma fromhex_spaced_hex s :
  (exists b, ObjectIdLib.fromhex s = Some b) <-> spaced_hex s = true.
Proof.
  induction s as [s IH] using string_strong_ind.
  destruct s as [|c1 rest1].
  - split; [reflexivity | intros _; now exists []].
  - cbn [ObjectIdLib.fromhex spaced_hex].
    destruct (ObjectIdLib.is_space c1).
    + apply IH. cbn [String.length]. lia.
    + destruct rest1 as [|c2 rest].
      * split; [intros [b Hb]; discriminate Hb | discriminate].
      * destruct (ObjectIdLib.hex_value c1) as [h|].
        2:{ split; [intros [b Hb]; discriminate Hb | discriminate]. }
        destruct (ObjectIdLib.hex_value c2) as [l|].
        2:{ split; [intros [b Hb]; discriminate Hb | discriminate]. }
        rewrite <- (IH rest) by (cbn [String.length]; lia).
        destruct (ObjectIdLib.fromhex rest) as [t|].
        -- split; intros _; eauto.
        -- split; intros [b Hb]; discriminate Hb.
Qed.

(** Hexadecimal digits alone, in even number, are read. *)
Lemma all_hex_spaced_hex s :
  all_hex s = true -> Nat.even (String.length s) = true -> spaced_hex s = true.
Proof.
  induction s as [|c|c1 c2 rest IH] using string_ind2.
  - reflexivity.
  - intros _ H. discriminate H.
  - cbn [all_hex spaced_hex String.length Nat.even].
    destruct (ObjectIdLib.hex_value c1) as [h|] eqn:H1; [|discriminate].
    destruct (ObjectIdLib.hex_value c2) as [l|] eqn:H2; [|discriminate].
    rewrite (ObjectIdFacts.hex_value_no_space _ _ H1). exact IH.
Qed.

Lemma is_oid_string_accepted s :
  is_oid_string s = true -> accepted_oid_string s = true.
Proof.
  unfold is_oid_string, accepted_oid_string. intros H.
  apply andb_true_iff in H. destruct H as [Hlen Hall].
  rewrite Hlen. cbn [andb]. apply all_hex_spaced_hex; [exact Hall|].
  apply Nat.eqb_eq in Hlen. now rewrite Hlen.
Qed.

(** [ObjectId(s)] for a string: an identifier when [s] has 24 characters
    that [bytes.fromhex] reads, [InvalidId] otherwise. *)
Lemma ObjectId_new_string ObjectId_generate s :
  (accepted_oid_string s = true /\
   exists b, ObjectId_new ObjectId_generate (VStr s) = inr (VObjectId b))
  \/ (accepted_oid_string s = false /\
      ObjectId_new ObjectId_generate (VStr s) = inl InvalidId).
Proof.
  unfold accepted_oid_string. cbn [ObjectId_new].
  destruct (String.length s =? 24)%nat; [|right; auto].
  pose proof (fromhex_spaced_hex s) as [Hto Hfrom].
  destruct (ObjectIdLib.fromhex s) as [b|].
  - left. rewrite Hto by eauto. eauto.
  - right. split; [|reflexivity].
    destruct (spaced_hex s); [|reflexivity].
    destruct Hfrom as [b Hb]; [reflexivity | discriminate Hb].
Qed.

Lemma canon_ObjectId v b : canon v = VObjectId b -> v = VObjectId b.
Proof. destruct v; cbn; intros H; try discriminate; exact H. Qed.

Lemma startswith_append p rest : startswith (p ++ rest) p = true.
Proof.
  unfold startswith. induction p as [|a p IH]; [now destruct rest|].
  cbn. destruct (ascii_dec a a); [exact IH | contradiction].
Qed.

(** [s.split(':')] after a prefix without colon that ends in a colon. *)
Lemma split_binary_prefix rest :
  split ":" ("$binary:" ++ rest) = "$binary" :: split ":" rest.
Proof.
  cbn. destruct (split ":" rest); reflexivity.
Qed.

Lemma split_colon_free s : colon_free s = true -> split ":" s = [s].
Proof.
  induction s as [|c rest IH]; [reflexivity|].
  cbn [colon_free split]. intros H.
  apply andb_true_iff in H. destruct H as [Hc Hrest].
  apply negb_true_iff in Hc. rewrite Hc, (IH Hrest). reflexivity.
Qed.

Section DecodeProperties.

Variable py_repr : value -> string.
Variable Decimal128_str : Z -> Z -> string.
Variable Decimal128_new : value -> result (Z * Z).
Variable ObjectId_generate : list byte.

Local Abbreviation decode := (convert_json_to_bson Decimal128_new ObjectId_generate) (only parsing).
Local Abbreviation encode := (encode py_repr Decimal128_str) (only parsing).

(** C4.  A mapping is decoded by the first tag key it holds, in the order
    [$binary], [$oid], [$ref] with [$id], [$timestamp], [$numberDecimal]:
    the result is that rule applied to the value under that key, whatever
    else the mapping holds.  In particular a mapping with both [$oid] and
    [$binary] is decoded by the [$binary] rule, and a mapping with no tag
    key is decoded field by field. *)
Theorem decode_tag_priority (items : list (string * value)) :
  (forall payload,
      dict_get "$binary" items = Some payload ->
      decode (VDict items) = (b <- b64decode payload ;; ret (VBinary b 0)))
  /\ (dict_has "$binary" items = false ->
      forall oid,
        dict_get "$oid" items = Some oid ->
        decode (VDict items) = ObjectId_new ObjectId_generate oid)
  /\ (dict_has "$binary" items = false ->
      dict_has "$oid" items = false ->
      forall collection id,
        dict_get "$ref" items = Some collection ->
        dict_get "$id" items = Some id ->
        decode (VDict items)
        = (oid <- ObjectId_new ObjectId_generate id ;; DBRef_new collection oid))
  /\ (dict_has "$binary" items = false ->
      dict_has "$oid" items = false ->
      dict_has "$ref" items && dict_has "$id" items = false ->
      forall ts,
        dict_get "$timestamp" items = Some ts ->
        decode (VDict items)
        = (t <- getitem ts "t" ;; i <- getitem ts "i" ;; Timestamp_new t i))
  /\ (dict_has "$binary" items = false ->
      dict_has "$oid" items = false ->
      dict_has "$ref" items && dict_has "$id" items = false ->
      dict_has "$timestamp" items = false ->
      forall d,
        dict_get "$numberDecimal" items = Some d ->
        decode (VDict items)
        = (hl <- Decimal128_new d ;; ret (VDecimal128 (fst hl) (snd hl))))
  /\ (tagged items = false ->
      decode (VDict items) = (items' <- mapM_items decode items ;; ret (VDict items')))
  /\ decode (VDict [("$oid", VStr "654af03c9d1e2b0017a45c01"); ("$binary", VStr "QUJD")])
     = inr (VBinary [x41; x42; x43] 0).
Proof.
  repeat split.
  - intros payload H. cbn [convert_json_to_bson getitem].
    rewrite (dict_has_get _ _ _ H), H. reflexivity.
  - intros Hb oid H. cbn [convert_json_to_bson getitem].
    rewrite Hb, (dict_has_get _ _ _ H), H. reflexivity.
  - intros Hb Ho collection id Hr Hi. cbn [convert_json_to_bson getitem].
    rewrite Hb, Ho, (dict_has_get _ _ _ Hr), (dict_has_get _ _ _ Hi), Hr, Hi.
    reflexivity.
  - intros Hb Ho Hri ts H. cbn [convert_json_to_bson].
    rewrite Hb, Ho, Hri, (dict_has_get _ _ _ H). cbn [getitem]. rewrite H.
    reflexivity.
  - intros Hb Ho Hri Ht d H. cbn [convert_json_to_bson].
    rewrite Hb, Ho, Hri, Ht, (dict_has_get _ _ _ H). cbn [getitem]. rewrite H.
    reflexivity.
  - apply decode_items.
Qed.

(** C8, as the code has it.  A string with the prefix [$binary:] is decoded
    to the blob that base64-decoding the text between the prefix and the
    next colon gives, which is the whole remainder when the remainder has no
    colon; the encode direction gives the [$binary] mapping, and no string,
    for every blob. *)
Theorem legacy_binary_string_is_accept_only (rest : string) :
  decode (VStr ("$binary:" ++ rest))
  = (b <- b64decode (VStr (hd EmptyString (split ":" rest))) ;; ret (VBinary b 0))
  /\ (colon_free rest = true ->
      decode (VStr ("$binary:" ++ rest))
      = (b <- b64decode (VStr rest) ;; ret (VBinary b 0)))
  /\ (forall b subtype,
         encode (VBinary b subtype) = inr (VDict [("$binary", VStr (Base64.b64encode b))]))
  /\ (forall b, encode (VBytes b) = inr (VDict [("$binary", VStr (Base64.b64encode b))])).
Proof.
  assert (E : decode (VStr ("$binary:" ++ rest))
              = (b <- b64decode (VStr (hd EmptyString (split ":" rest))) ;;
                 ret (VBinary b 0))).
  { cbn [convert_json_to_bson].
    rewrite startswith_append.
    rewrite split_binary_prefix. cbn [nth].
    destruct (split ":" rest); reflexivity. }
  repeat split; try reflexivity.
  - exact E.
  - intros H. rewrite E, (split_colon_free _ H). reflexivity.
Qed.

(** C10, as the code has it.  A mapping that is decoded by the
    [$ref]/[$id] rule and whose [$id] is a string is decoded only when that
    string has 24 characters that [bytes.fromhex] reads: pairs of
    hexadecimal digits, with ASCII white space allowed around the pairs.
    The decoder raises [InvalidId] on every other string, and it builds the
    reference from every such string when the collection is a string; 24
    hexadecimal digits are always such a string.  A [DBRef] whose
    identifier is not an [ObjectId] is encoded, with its identifier turned
    into a string, and its encoding never decodes to it. *)
Theorem reference_id_must_be_object_id :
  (forall items collection s,
      dict_has "$binary" items = false ->
      dict_has "$oid" items = false ->
      dict_get "$ref" items = Some collection ->
      dict_get "$id" items = Some (VStr s) ->
      (forall v, decode (VDict items) = inr v -> accepted_oid_string s = true)
      /\ (accepted_oid_string s = false -> decode (VDict items) = inl InvalidId)
      /\ (forall c,
             collection = VStr c ->
             accepted_oid_string s = true ->
             exists b, decode (VDict items) = inr (VDBRef c (VObjectId b) None))
      /\ (is_oid_string s = true -> accepted_oid_string s = true))
  /\ (forall collection id database,
         (forall b, id <> VObjectId b) ->
         exists J,
           encode (VDBRef collection id database) = inr J
           /\ decode J <> inr (VDBRef collection id database)
           /\ decode J <> inr (canon (VDBRef collection id database))).
Proof.
  split.
  - intros items collection s Hb Ho Hr Hi.
    assert (E : decode (VDict items)
                = (oid <- ObjectId_new ObjectId_generate (VStr s) ;;
                   DBRef_new collection oid)).
    { cbn [convert_json_to_bson getitem].
      rewrite Hb, Ho, (dict_has_get _ _ _ Hr), (dict_has_get _ _ _ Hi), Hr, Hi.
      reflexivity. }
    rewrite E.
    destruct (ObjectId_new_string ObjectId_generate s) as [[Hs [b Hoid]] | [Hs Hraise]].
    + split; [auto|]. split; [congruence|]. split; [|apply is_oid_string_accepted].
      intros c -> _. exists b. now rewrite Hoid.
    + rewrite Hraise. split; [discriminate|]. split; [reflexivity|].
      split; [congruence | apply is_oid_string_accepted].
  - intros collection id database Hid.
    exists (VDict [("$ref", VStr collection); ("$id", VStr (py_str py_repr id))]).
    split; [reflexivity|].
    assert (E : decode (VDict [("$ref", VStr collection);
                              ("$id", VStr (py_str py_repr id))])
                = (oid <- ObjectId_new ObjectId_generate (VStr (py_str py_repr id)) ;;
                   DBRef_new (VStr collection) oid)) by reflexivity.
    rewrite E.
    destruct (ObjectId_new_string ObjectId_generate (py_str py_repr id))
      as [[_ [b Hb]] | [_ Hraise]].
    + rewrite Hb. cbn. split; intros H; injection H as H1 H2.
      * now apply (Hid b).
      * symmetry in H1. apply canon_ObjectId in H1. now apply (Hid b).
    + rewrite Hraise. split; discriminate.
Qed.

(** C1, as the code has it.  Every representable document (blobs of
    subtype 0, references to an object identifier with no database, no
    unsupported object, no plain mapping with a reserved key, no plain
    string with the legacy prefix) is encoded, and decoding its encoding
    yields the document, binary-equal: the bytes of every blob, the fields
    of every timestamp and every decimal are the original ones. *)
Theorem round_trip_of_representable (D : value) :
  representable Decimal128_str Decimal128_new D ->
  exists J, encode D = inr J /\ decode J = inr (canon D).
Proof.
  apply roundtrip_representable.
Qed.

End DecodeProperties.

(** The round trip fails on a reference whose identifier is a string: the
    encoder writes the string under [$id], and the decoder, which wraps
    every [$id] in [ObjectId], raises [InvalidId]. *)
Lemma round_trip_fails_on_string_reference : string_reference_is_lost.
Proof.
  intros py_repr Decimal128_str Decimal128_new ObjectId_generate.
  split; reflexivity.
Qed.

(** The sample document is representable and survives the round trip. *)
Lemma round_trip_of_sample_document :
  representable sample_Decimal128_str sample_Decimal128_new sample_document
  /\ exists J,
      encode sample_repr sample_Decimal128_str sample_document = inr J
      /\ convert_json_to_bson sample_Decimal128_new sample_oid J
         = inr (canon sample_document).
Proof.
  assert (H : representable sample_Decimal128_str sample_Decimal128_new sample_document).
  { cbn. unfold UPPERBOUND. repeat split; try reflexivity; lia. }
  split; [exact H|].
  exact (round_trip_of_representable sample_repr sample_Decimal128_str
           sample_Decimal128_new sample_oid sample_document H).
Defined.

(** A mapping with [$oid] and [$binary] is decoded from its [$binary]. *)
Lemma decode_tag_priority_on_mixed_mapping :
  dict_get "$binary" [("$oid", VStr "zz"); ("$binary", VStr "QUJD")] = Some (VStr "QUJD")
  /\ convert_json_to_bson sample_Decimal128_new sample_oid
       (VDict [("$oid", VStr "zz"); ("$binary", VStr "QUJD")])
     = (b <- b64decode (VStr "QUJD") ;; ret (VBinary b 0)).
Proof.
  split; [reflexivity|].
  exact (proj1 (decode_tag_priority sample_Decimal128_new sample_oid
                  [("$oid", VStr "zz"); ("$binary", VStr "QUJD")])
           (VStr "QUJD") eq_refl).
Defined.

(** The legacy string whose remainder has a second colon is not decoded
    from its whole remainder. *)
Lemma legacy_string_with_second_colon : legacy_second_colon.
Proof.
  intros Decimal128_new ObjectId_generate. split; reflexivity.
Qed.

(** A legacy string without a second colon is decoded from its remainder. *)
Lemma legacy_binary_string_sample :
  colon_free "QUJD" = true
  /\ convert_json_to_bson sample_Decimal128_new sample_oid (VStr "$binary:QUJD")
     = (b <- b64decode (VStr "QUJD") ;; ret (VBinary b 0)).
Proof.
  split; [reflexivity|].
  exact (proj1 (proj2 (legacy_binary_string_is_accept_only sample_repr
                         sample_Decimal128_str sample_Decimal128_new sample_oid "QUJD"))
           eq_refl).
Defined.

(** A reference mapping whose [$id] is not an identifier string raises. *)
Lemma reference_with_name_as_id_raises :
  accepted_oid_string "alice" = false
  /\ convert_json_to_bson sample_Decimal128_new sample_oid
       (VDict [("$ref", VStr "users"); ("$id", VStr "alice")])
     = inl InvalidId.
Proof.
  split; [reflexivity|].
  exact (proj1 (proj2 (proj1 (reference_id_must_be_object_id sample_repr
                                sample_Decimal128_str sample_Decimal128_new sample_oid)
                         [("$ref", VStr "users"); ("$id", VStr "alice")]
                         (VStr "users") "alice" eq_refl eq_refl eq_refl eq_refl))
           eq_refl).
Defined.

(** A [$id] of 24 characters that is not 24 hexadecimal digits and is
    decoded all the same: eight pairs of digits, each followed by a space.
    The reference that is built has an identifier of eight bytes. *)
Lemma spaced_reference_id_is_decoded :
  is_oid_string "00 11 22 33 44 55 66 77 " = false
  /\ String.length "00 11 22 33 44 55 66 77 " = 24%nat
  /\ convert_json_to_bson sample_Decimal128_new sample_oid
       (VDict [("$ref", VStr "users"); ("$id", VStr "00 11 22 33 44 55 66 77 ")])
     = inr (VDBRef "users"
              (VObjectId [x00; x11; x22; x33; x44; x55; x66; x77]) None).
Proof. repeat split. Qed.

(** ** The payload filter *)

Lemma str_contains_empty s : str_contains s EmptyString = true.
Proof. destruct s; reflexivity. Qed.

Lemma overwrite_content c old l :
  dict_get "Content" l = Some old ->
  dict_get "Content" (overwrite (Some c) l) = Some c.
Proof.
  induction l as [|[key v] rest IH]; [discriminate|].
  cbn [dict_get overwrite]. rewrite (String.eqb_sym key "Content").
  destruct (String.eqb "Content" key) eqn:E.
  - intros _. cbn [dict_get]. now rewrite E.
  - intros H. cbn [dict_get]. rewrite E. now apply IH.
Qed.

(** The loop over the items leaves the fresh [Content] in place, whether it
    completes or is left by an exception. *)
Lemma visit_items_content f c old l :
  dict_get "Content" l = Some old ->
  dict_get "Content" (state (visit_items f (Some c) l)) = Some c.
Proof.
  induction l as [|[key v] rest IH]; [discriminate|].
  cbn [dict_get visit_items]. rewrite (String.eqb_sym key "Content").
  destruct (String.eqb "Content" key) eqn:E.
  - intros _. cbn [state dict_get]. now rewrite E.
  - intros H.
    destruct (raised (if is_container v then f v else untouched v)).
    + cbn [state dict_get]. rewrite E. now apply overwrite_content with (old := old).
    + cbn [state dict_get]. rewrite E. now apply IH.
Qed.

Section FilterFacts.

Variable json_loads : string -> result value.
Variable json_dumps : value -> string.
Variable utf8_decode : list byte -> result string.
Variable utf8_encode : string -> list byte.

Local Abbreviation process_json :=
  (process_json json_loads json_dumps utf8_decode utf8_encode) (only parsing).
Local Abbreviation rewrite_content :=
  (rewrite_content json_loads json_dumps utf8_decode utf8_encode) (only parsing).

(** On an element of the expected shape the condition of the comprehension
    is the condition of the specification and raises nothing. *)
Lemma keep_elem_kept search_key elem :
  is_element elem = true -> keep_elem search_key elem = inr (kept search_key elem).
Proof.
  destruct elem; try discriminate. cbn [is_element].
  unfold keep_elem, kept, asset_name, inventory_free. cbn [get].
  destruct (dict_get "AssetName" items) as [[]|]; try discriminate; intros _;
    cbn [bind ret contains].
  - destruct (str_contains s search_key); cbn [negb andb]; [reflexivity|].
    destruct (dict_get "InventoryId" items) as [[]|]; reflexivity.
  - destruct (str_contains EmptyString search_key); cbn [negb andb]; [reflexivity|].
    destruct (dict_get "InventoryId" items) as [[]|]; reflexivity.
Qed.

Lemma filter_elements_kept search_key elems :
  forallb is_element elems = true ->
  filter_elements search_key elems = inr (filter (kept search_key) elems).
Proof.
  induction elems as [|elem rest IH]; [reflexivity|].
  cbn [forallb filter_elements filter]. intros H.
  apply andb_true_iff in H. destruct H as [He Hrest].
  rewrite (keep_elem_kept _ _ He), (IH Hrest). cbn.
  destruct (kept search_key elem); reflexivity.
Qed.

Lemma filter_payload_kept search_key d elems :
  dict_get "Elements" d = Some (VList elems) ->
  forallb is_element elems = true ->
  filter_payload search_key (VDict d)
  = inr (VDict (dict_set "Elements" (VList (filter (kept search_key) elems)) d)).
Proof.
  intros Hd Helems. unfold filter_payload. cbn [contains bind ret getitem].
  rewrite (dict_has_get _ _ _ Hd), Hd. cbn [bind ret].
  rewrite (filter_elements_kept _ _ Helems). reflexivity.
Qed.

(** A payload that was decoded is filtered, dumped and encoded. *)
Lemma rewrite_content_decoded search_key content decoded_json :
  payload json_loads utf8_decode content = inr decoded_json ->
  rewrite_content search_key content
  = match filter_payload search_key decoded_json with
    | inl e => Uncaught e
    | inr decoded_json' =>
        Rewritten (Base64.b64encode (utf8_encode (json_dumps decoded_json')))
    end.
Proof.
  unfold payload, Model.rewrite_content. intros H.
  destruct (get content "$binary" (VStr "")) as [e|base64_content]; [discriminate|].
  cbn [bind] in H. rewrite H. reflexivity.
Qed.

(** A rewritten [Content] is in the node when [process_json] is done with
    it. *)
Lemma process_json_rewritten search_key items content encoded_json :
  dict_get "Content" items = Some content ->
  rewrite_content search_key content = Rewritten encoded_json ->
  exists items',
    state (process_json (VDict items) search_key) = VDict items'
    /\ dict_get "Content" items' = Some (binary_tag encoded_json).
Proof.
  intros Hc Hr. cbn [Model.process_json]. rewrite Hc, Hr. cbn [state].
  eexists. split; [reflexivity|].
  now apply visit_items_content with (old := content).
Qed.

(** Visiting the dict that replaced a [Content] changes nothing, which is
    why [visit_items] does not enter it. *)
Lemma process_json_binary_tag search_key encoded_json :
  process_json (binary_tag encoded_json) search_key
  = untouched (binary_tag encoded_json).
Proof. reflexivity. Qed.

End FilterFacts.

Section FilterProperties.

Variable json_loads : string -> result value.
Variable json_dumps : value -> string.
Variable utf8_decode : list byte -> result string.
Variable utf8_encode : string -> list byte.

Local Abbreviation process_json :=
  (process_json json_loads json_dumps utf8_decode utf8_encode) (only parsing).
Local Abbreviation remove_props :=
  (remove_props json_loads json_dumps utf8_decode utf8_encode) (only parsing).

(** C3, as the code has it.  When the payload of a [Content] is decoded to
    an object whose [Elements] is a sequence of elements (mappings whose
    [AssetName], when present, is a string), [process_json] stores in
    [Content] the payload with [Elements] reduced to exactly the elements
    whose [AssetName] (the empty string when missing) does not contain the
    substring and whose [InventoryId] is absent or null, in their order.  For the substring
    [pet] the sequence of the example is reduced to its third element (the
    first contains the substring, the second has an inventory identifier),
    and the empty element is kept. *)
Theorem filter_keeps_exactly_the_unmatched_free_elements :
  (forall search_key items content d elems,
      dict_get "Content" items = Some content ->
      payload json_loads utf8_decode content = inr (VDict d) ->
      dict_get "Elements" d = Some (VList elems) ->
      forallb is_element elems = true ->
      exists items',
        state (process_json (VDict items) search_key) = VDict items'
        /\ dict_get "Content" items'
           = Some (binary_tag
                     (Base64.b64encode
                        (utf8_encode
                           (json_dumps
                              (VDict (dict_set "Elements"
                                        (VList (filter (kept search_key) elems)) d)))))))
  /\ filter_elements "pet" [red_pet_hat; blue_hat; green_hat] = inr [green_hat]
  /\ str_contains (asset_name red_pet_hat) "pet" = true
  /\ inventory_free blue_hat = false
  /\ filter_elements "pet" [VDict []] = inr [VDict []].
Proof.
  repeat split; try reflexivity.
  intros search_key items content d elems Hc Hp Hd Helems.
  apply process_json_rewritten with (content := content); [exact Hc|].
  rewrite (rewrite_content_decoded _ _ _ _ _ _ _ Hp).
  now rewrite (filter_payload_kept _ _ _ Hd Helems).
Qed.

(** C9, as the code has it.  With the empty substring every element of a
    decoded [Elements] sequence is removed, whatever its [InventoryId],
    when the elements are mappings whose [AssetName], when present, is a
    string: every such [AssetName], and the empty string that stands for a
    missing one, contains the empty string. *)
Theorem empty_substring_removes_every_element :
  forall items content d elems,
    dict_get "Content" items = Some content ->
    payload json_loads utf8_decode content = inr (VDict d) ->
    dict_get "Elements" d = Some (VList elems) ->
    forallb is_element elems = true ->
    (forall elem, kept EmptyString elem = false)
    /\ filter_elements EmptyString elems = inr []
    /\ exists items',
        state (process_json (VDict items) EmptyString) = VDict items'
        /\ dict_get "Content" items'
           = Some (binary_tag
                     (Base64.b64encode
                        (utf8_encode
                           (json_dumps (VDict (dict_set "Elements" (VList []) d)))))).
Proof.
  intros items content d elems Hc Hp Hd Helems.
  assert (Hk : forall elem, kept EmptyString elem = false).
  { intros elem. unfold kept. now rewrite str_contains_empty. }
  assert (Hf : filter (kept EmptyString) elems = []).
  { clear -Hk. induction elems as [|e t IH]; [reflexivity|].
    cbn [filter]. now rewrite Hk. }
  split; [exact Hk|]. split.
  - now rewrite (filter_elements_kept _ _ Helems), Hf.
  - apply process_json_rewritten with (content := content); [exact Hc|].
    rewrite (rewrite_content_decoded _ _ _ _ _ _ _ Hp).
    now rewrite (filter_payload_kept _ _ _ Hd Helems), Hf.
Qed.

(** C2, the failing input.  The payload [abc] is not valid base64:
    [b64decode] raises [binascii.Error], which the handler of
    [process_json] does not name.  The exception leaves [process_json]
    without a message, the node that follows in the tree is not visited,
    whatever it holds, and [remove_props] writes nothing back. *)
Theorem malformed_base64_aborts_the_pass (search_key : string) (next : value) :
  let bad := VDict [("Content", VDict [("$binary", VStr "abc")])] in
  process_json (VList [bad; next]) search_key
  = Outcome (VList [bad; next]) [] (Some BinasciiError)
  /\ remove_props (inr (VList [bad; next])) search_key
     = FileRun None [UnexpectedError BinasciiError].
Proof.
  split; reflexivity.
Qed.

(** X2.  A failure that the handler does name is reported, and the
    [return] of the handler leaves the node before the loop over its
    children: nothing below the node is visited. *)
Lemma reported_failure_skips_the_children search_key items content e :
  dict_get "Content" items = Some content ->
  payload json_loads utf8_decode content = inl e ->
  caught e = true ->
  process_json (VDict items) search_key = Outcome (VDict items) [e] None.
Proof.
  intros Hc Hp He. cbn [Model.process_json]. rewrite Hc.
  unfold rewrite_content. unfold payload in Hp.
  destruct (get content "$binary" (VStr "")) as [e'|base64_content] eqn:Hg.
  - cbn [bind] in Hp. injection Hp as ->.
    destruct content; cbn in Hg; try (injection Hg as <-; discriminate).
    destruct (dict_get "$binary" items0); discriminate.
  - cbn [bind] in Hp. rewrite Hp, He. reflexivity.
Qed.

End FilterProperties.

(** The sample node: its payload is decoded, and [Content] ends with the
    payload whose [Elements] are the kept ones. *)
Lemma filter_on_sample_node :
  payload sample_loads sample_utf8_decode (VDict [("$binary", VStr "UEFZTE9BRA==")])
  = inr (VDict sample_payload)
  /\ forallb is_element [red_pet_hat; blue_hat; green_hat] = true
  /\ exists items',
      state (process_json sample_loads sample_dumps sample_utf8_decode
               sample_utf8_encode (VDict sample_node) "pet") = VDict items'
      /\ dict_get "Content" items'
         = Some (binary_tag
                   (Base64.b64encode
                      (sample_utf8_encode
                         (sample_dumps
                            (VDict (dict_set "Elements"
                                      (VList (filter (kept "pet")
                                                [red_pet_hat; blue_hat; green_hat]))
                                      sample_payload)))))).
Proof.
  split; [reflexivity|]. split; [reflexivity|].
  exact (proj1 (filter_keeps_exactly_the_unmatched_free_elements sample_loads
                  sample_dumps sample_utf8_decode sample_utf8_encode)
           "pet" sample_node (VDict [("$binary", VStr "UEFZTE9BRA==")])
           sample_payload [red_pet_hat; blue_hat; green_hat]
           eq_refl eq_refl eq_refl eq_refl).
Defined.

(** The sample node under the empty substring: no element is left. *)
Lemma empty_substring_on_sample_node :
  payload sample_loads sample_utf8_decode (VDict [("$binary", VStr "UEFZTE9BRA==")])
  = inr (VDict sample_payload)
  /\ forallb is_element [red_pet_hat; blue_hat; green_hat] = true
  /\ filter_elements EmptyString [red_pet_hat; blue_hat; green_hat] = inr [].
Proof.
  split; [reflexivity|]. split; [reflexivity|].
  exact (proj1 (proj2 (empty_substring_removes_every_element sample_loads
                         sample_dumps sample_utf8_decode sample_utf8_encode
                         sample_node (VDict [("$binary", VStr "UEFZTE9BRA==")])
                         sample_payload [red_pet_hat; blue_hat; green_hat]
                         eq_refl eq_refl eq_refl eq_refl))).
Defined.

(** The payload [NAMELESS]: both elements have a name that does not
    contain [pet] and no inventory identifier, so both are elements to
    keep, but the null name makes the test of the filter raise
    [TypeError]: the pass ends there and [Content] is left as it was.  An
    element whose name is a list that holds [pet] is dropped, although no
    string of it contains [pet] as a substring of a name. *)
Lemma null_asset_name_aborts_the_filter :
  payload odd_names_reader sample_utf8_decode (VDict [("$binary", VStr "TkFNRUxFU1M=")])
  = inr (VDict [("Elements", VList [green_hat; nameless_hat])])
  /\ filter (kept "pet") [green_hat; nameless_hat] = [green_hat; nameless_hat]
  /\ filter_elements "pet" [green_hat; nameless_hat] = inl TypeError
  /\ process_json odd_names_reader sample_dumps sample_utf8_decode sample_utf8_encode
       (VDict [("Content", VDict [("$binary", VStr "TkFNRUxFU1M=")])]) "pet"
     = Outcome (VDict [("Content", VDict [("$binary", VStr "TkFNRUxFU1M=")])])
         [] (Some TypeError)
  /\ kept "pet" pet_list_hat = true
  /\ filter_elements "pet" [pet_list_hat] = inr [].
Proof. repeat split. Qed.

(** The payload [LISTED] under the empty substring: the empty list holds
    no string, the empty one included, so the element is kept and the
    rewritten [Elements] is not empty; and a null name makes the test raise
    [TypeError] instead of removing the element. *)
Lemma empty_list_name_survives_the_empty_substring :
  payload odd_names_reader sample_utf8_decode (VDict [("$binary", VStr "TElTVEVE")])
  = inr (VDict [("Elements", VList [listed_hat])])
  /\ filter_elements EmptyString [listed_hat] = inr [listed_hat]
  /\ filter_payload EmptyString (VDict [("Elements", VList [listed_hat])])
     = inr (VDict [("Elements", VList [listed_hat])])
  /\ filter_elements EmptyString [nameless_hat] = inl TypeError.
Proof. repeat split. Qed.

(** ** The file converters *)

Lemma mapM_Forall2 {A B : Type} (f : A -> result B) l l' :
  Forall2 (fun a b => f a = inr b) l l' -> mapM f l = inr l'.
Proof.
  induction 1 as [|a b t t' Hab _ IH]; [reflexivity|].
  cbn [mapM]. rewrite Hab, IH. reflexivity.
Qed.

Lemma mapM_length {A B : Type} (f : A -> result B) l l' :
  mapM f l = inr l' -> List.length l' = List.length l.
Proof.
  revert l'. induction l as [|a t IH]; intros l' H; cbn in H.
  - injection H as <-. reflexivity.
  - destruct (f a) as [e|b]; [discriminate|]. cbn in H.
    destruct (mapM f t) as [e|t']; [discriminate|]. cbn in H.
    injection H as <-. cbn. f_equal. now apply IH.
Qed.

Lemma convert_and_write_unfold py_repr Decimal128_str bson_decode_all
      asked bson_data validate :
  convert_and_write py_repr Decimal128_str bson_decode_all asked (inr bson_data)
    validate
  = match bson_decode_all bson_data with
    | inl e => JsonRun asked Kept (Some (if is_BSONError e then ValueError else e))
    | inr decoded_data =>
        match encode py_repr Decimal128_str (VList decoded_data) with
        | inl e => JsonRun asked Opened (Some e)
        | inr J => JsonRun asked (Written J) None
        end
    end.
Proof.
  unfold convert_and_write.
  destruct (bson_decode_all bson_data) as [e|decoded_data].
  - destruct validate; destruct (is_BSONError e); reflexivity.
  - destruct validate; reflexivity.
Qed.

Section FileProperties.

Variable py_repr : value -> string.
Variable Decimal128_str : Z -> Z -> string.
Variable Decimal128_new : value -> result (Z * Z).
Variable ObjectId_generate : list byte.
Variable bson_encode : value -> result (list byte).
Variable bson_decode_all : list byte -> result (list value).

(** What [json.load] returns from the text that [json.dump] wrote for a
    value, left abstract like the library. *)
Variable json_reload : value -> result value.

Local Abbreviation decode := (convert_json_to_bson Decimal128_new ObjectId_generate) (only parsing).
Local Abbreviation encode := (encode py_repr Decimal128_str) (only parsing).
Local Abbreviation representable := (representable Decimal128_str Decimal128_new) (only parsing).
Local Abbreviation json_to_bson :=
  (json_to_bson Decimal128_new ObjectId_generate bson_encode) (only parsing).
Local Abbreviation convert_and_write :=
  (convert_and_write py_repr Decimal128_str bson_decode_all) (only parsing).

(** The write loop appends the records in the order of the documents. *)
Lemma write_docs_all docs records :
  Forall2 (fun d r => bson_encode d = inr r) docs records ->
  forall file, write_docs bson_encode docs file = (file ++ List.concat records, None).
Proof.
  induction 1 as [|d r t t' Hdr _ IH]; intros file; cbn [write_docs List.concat].
  - now rewrite app_nil_r.
  - rewrite Hdr, IH, <- app_assoc. reflexivity.
Qed.

(** C5, the failing input.  A document with a field of malformed base64:
    the conversion raises [binascii.Error] and the output file is left as
    it was, but [json_to_bson], whose docstring says it raises
    [ValueError], catches the exception, prints a message and returns. *)
Theorem malformed_base64_is_printed_not_raised (before : option (list byte)) :
  let doc := VDict [("name", VStr "hat"); ("blob", VDict [("$binary", VStr "abc")])] in
  decode doc = inl BinasciiError
  /\ json_to_bson (inr doc) before
     = Conversion before [ErrorProcessing BinasciiError] None.
Proof.
  split; reflexivity.
Qed.

(** C6, as the code has it.  The records of a JSON sequence of N documents
    are written back to back in the order of the sequence.  A stream that
    [bson.decode_all] decodes to N documents is turned by [bson_to_json]
    into a JSON sequence of N elements, and [json_to_bson] writes the
    stream back byte for byte under four conditions: the stream is what
    [bson.encode] writes for the documents it decodes to, every document is
    representable in tagged JSON, [bson.encode] writes raw bytes and a
    [Binary] of subtype 0 alike, and [json.load] reads the JSON file back as
    the value that was written. *)
Theorem sequences_are_written_record_by_record :
  (forall js docs records before,
      Forall2 (fun j d => decode j = inr d) js docs ->
      Forall2 (fun d r => bson_encode d = inr r) docs records ->
      json_to_bson (inr (VList js)) before
      = Conversion (Some (List.concat records)) [Converted] None)
  /\ (forall stream docs asked validate before,
         bson_decode_all stream = inr docs ->
         written_by bson_encode docs stream ->
         Forall representable docs ->
         Forall (fun d => bson_encode (canon d) = bson_encode d) docs ->
         (forall J,
             convert_and_write asked (inr stream) validate
             = JsonRun asked (Written J) None ->
             json_reload J = inr J) ->
         exists js,
           convert_and_write asked (inr stream) validate
           = JsonRun asked (Written (VList js)) None
           /\ List.length js = List.length docs
           /\ json_to_bson (json_reload (VList js)) before
              = Conversion (Some stream) [Converted] None).
Proof.
  assert (Hwrite : forall js docs records before,
             decode (VList js) = inr (VList docs) ->
             Forall2 (fun d r => bson_encode d = inr r) docs records ->
             json_to_bson (inr (VList js)) before
             = Conversion (Some (List.concat records)) [Converted] None).
  { intros js docs records before Hdec Henc.
    unfold Model.json_to_bson. rewrite Hdec.
    rewrite (write_docs_all _ _ Henc). reflexivity. }
  split.
  - intros js docs records before Hdec Henc.
    apply Hwrite with (docs := docs); [|exact Henc].
    rewrite decode_list, (mapM_Forall2 _ _ _ Hdec). reflexivity.
  - intros stream docs asked validate before Hall (records & Henc & Hstream)
           Hrep Hcanon Hreload.
    destruct (roundtrip_representable py_repr Decimal128_str Decimal128_new
                ObjectId_generate (VList docs)) as (J & HJ & Hback).
    { now apply representable_list. }
    assert (Hrun : convert_and_write asked (inr stream) validate
                   = JsonRun asked (Written J) None).
    { now rewrite convert_and_write_unfold, Hall, HJ. }
    rewrite encode_list in HJ.
    destruct (mapM encode docs) as [e|js] eqn:Hjs; [discriminate|].
    cbn in HJ. injection HJ as <-.
    exists js. split; [exact Hrun|]. split.
    + now apply mapM_length with (f := encode).
    + rewrite (Hreload _ Hrun), Hstream.
      apply Hwrite with (docs := map canon docs); [now rewrite Hback|].
      clear -Henc Hcanon.
      induction Henc as [|d r t t' Hdr _ IH]; [constructor|].
      inversion Hcanon; subst. cbn [map]. constructor; [congruence | now apply IH].
Qed.

End FileProperties.

(** A stream whose first document holds a date is not converted: the
    encoder has no rule for a date, and [json.dump] raises [TypeError]
    after the output was opened. *)
Lemma stream_with_a_date_is_refused : dated_stream_is_refused.
Proof.
  intros py_repr Decimal128_str bson_decode_all asked stream validate H.
  now rewrite convert_and_write_unfold, H.
Qed.

(** A stream of three documents, the second with an object identifier, is
    converted to a JSON sequence of three elements and written back byte
    for byte. *)
Lemma three_documents_round_trip :
  id_bson_decode_all three_document_stream = inr three_documents
  /\ written_by id_bson_encode three_documents three_document_stream
  /\ exists js,
      convert_and_write sample_repr sample_Decimal128_str id_bson_decode_all
        false (inr three_document_stream) true
      = JsonRun false (Written (VList js)) None
      /\ List.length js = 3%nat
      /\ json_to_bson sample_Decimal128_new sample_oid id_bson_encode
           (inr (VList js)) None
         = Conversion (Some three_document_stream) [Converted] None.
Proof.
  assert (W : written_by id_bson_encode three_documents three_document_stream).
  { exists [EMPTY_RECORD; ID_RECORD_HEAD ++ sample_oid ++ [x00]; EMPTY_RECORD].
    split; [repeat constructor | reflexivity]. }
  split; [reflexivity|]. split; [exact W|].
  refine (proj2 (sequences_are_written_record_by_record sample_repr
                   sample_Decimal128_str sample_Decimal128_new sample_oid
                   id_bson_encode id_bson_decode_all (fun J => inr J))
            three_document_stream three_documents false true None
            eq_refl W _ _ _).
  - repeat constructor.
  - repeat constructor.
  - reflexivity.
Defined.

(** X3.  Each condition of [representable] that the library does not
    already guarantee is needed: a [Binary] of another subtype comes back with
    subtype 0, the database of a reference is dropped, a date is not
    encoded, a plain mapping with a reserved key and a plain string with the
    legacy prefix are decoded as tagged values. *)
Lemma representable_conditions_are_needed
      (py_repr : value -> string) (Decimal128_str : Z -> Z -> string)
      (Decimal128_new : value -> result (Z * Z)) (ObjectId_generate : list byte) :
  let encode := encode py_repr Decimal128_str in
  let decode := convert_json_to_bson Decimal128_new ObjectId_generate in
  (J <- encode (VBinary [x01] 5) ;; decode J) = inr (VBinary [x01] 0)
  /\ (J <- encode (VDBRef "users" (VObjectId sample_oid) (Some "shop")) ;; decode J)
     = inr (VDBRef "users" (VObjectId sample_oid) None)
  /\ encode (VDatetime 0) = inl TypeError
  /\ (J <- encode (VDict [("$oid", VStr "hello")]) ;; decode J) = inl InvalidId
  /\ (J <- encode (VStr "$binary:QUJD") ;; decode J) = inr (VBinary [x41; x42; x43] 0).
Proof.
  repeat split; reflexivity.
Qed.

(** Characters outside the base64 alphabet do not make the conversion fail:
    [b64decode] runs without validation and skips them. *)
Lemma stray_characters_are_skipped
      (Decimal128_new : value -> result (Z * Z)) (ObjectId_generate : list byte) :
  convert_json_to_bson Decimal128_new ObjectId_generate
    (VDict [("$binary", VStr "QUJD!!")])
  = inr (VBinary [x41; x42; x43] 0).
Proof. reflexivity. Qed.

Section Isolation.

Variable json_loads : string -> result value.
Variable json_dumps : value -> string.
Variable utf8_decode : list byte -> result string.
Variable utf8_encode : string -> list byte.

Local Abbreviation process_json :=
  (process_json json_loads json_dumps utf8_decode utf8_encode) (only parsing).

(** A failure that the handler reports in one element of a sequence does
    not stop the loop: the elements that follow are visited. *)
Lemma reported_failure_does_not_stop_the_siblings search_key node rest e :
  is_container node = true ->
  process_json node search_key = Outcome node [e] None ->
  process_json (VList (node :: rest)) search_key
  = let r := visit_elems (fun v => process_json v search_key) rest in
    Outcome (VList (node :: state r)) (e :: printed r) (raised r).
Proof.
  intros Hc Hn. cbn [Model.process_json visit_elems]. rewrite Hc, Hn. reflexivity.
Qed.

End Isolation.

(** A node whose payload is base64 of the text [not], which is no JSON,
    with a child that holds the sample node: the failure is reported and
    the child is left as it is. *)
Lemma reported_failure_on_sample_node :
  payload sample_loads sample_utf8_decode (VDict [("$binary", VStr "bm90")])
  = inl JSONDecodeError
  /\ process_json sample_loads sample_dumps sample_utf8_decode sample_utf8_encode
       (VDict [("Content", VDict [("$binary", VStr "bm90")]);
               ("Inner", VDict sample_node)]) "pet"
     = Outcome (VDict [("Content", VDict [("$binary", VStr "bm90")]);
                       ("Inner", VDict sample_node)])
         [JSONDecodeError] None.
Proof.
  split; [reflexivity|].
  exact (reported_failure_skips_the_children sample_loads sample_dumps
           sample_utf8_decode sample_utf8_encode "pet"
           [("Content", VDict [("$binary", VStr "bm90")]); ("Inner", VDict sample_node)]
           (VDict [("$binary", VStr "bm90")]) JSONDecodeError
           eq_refl eq_refl eq_refl).
Defined.

(** * More properties of the scripts *)

(** ** Comprehensions that may raise *)

Lemma mapM_inr_Forall2 {A B : Type} (f : A -> result B) l l' :
  mapM f l = inr l' -> Forall2 (fun a b => f a = inr b) l l'.
Proof.
  revert l'. induction l as [|a t IH]; intros l' H; cbn in H.
  - injection H as <-. constructor.
  - destruct (f a) as [e|b] eqn:Ha; [discriminate|]. cbn in H.
    destruct (mapM f t) as [e|t'] eqn:Ht; [discriminate|]. cbn in H.
    injection H as <-. constructor; [exact Ha | now apply IH].
Qed.

(** The exception of a comprehension is the exception of its first
    failing element. *)
Lemma mapM_inl_first {A B : Type} (f : A -> result B) l e :
  mapM f l = inl e <->
  exists pre x post,
    l = pre ++ x :: post
    /\ Forall (fun a => exists b, f a = inr b) pre
    /\ f x = inl e.
Proof.
  split.
  - induction l as [|a t IH]; intros H; cbn in H; [discriminate|].
    destruct (f a) as [e'|b] eqn:Ha.
    + cbn in H. injection H as ->. exists [], a, t. repeat split; auto.
    + cbn in H. destruct (mapM f t) as [e'|t'] eqn:Ht; [|discriminate].
      cbn in H. injection H as ->.
      destruct (IH eq_refl) as (pre & x & post & -> & Hpre & Hx).
      exists (a :: pre), x, post. repeat split; auto.
      constructor; eauto.
  - intros (pre & x & post & -> & Hpre & Hx).
    induction Hpre as [|a pre [b Hb] _ IH]; cbn.
    + now rewrite Hx.
    + now rewrite Hb, IH.
Qed.

Lemma mapM_items_inr f items items' :
  mapM_items f items = inr items' ->
  Forall2 (fun kv kv' => fst kv' = fst kv /\ f (snd kv) = inr (snd kv')) items items'.
Proof.
  unfold mapM_items. intros H. apply mapM_inr_Forall2 in H.
  induction H as [|[k v] [k' v'] t t' H _ IH]; constructor; [|exact IH].
  cbn in *. destruct (f v) as [e|w]; [discriminate|].
  cbn in H. injection H as <- <-. auto.
Qed.

Lemma mapM_items_Forall2 f items items' :
  Forall2 (fun kv kv' => fst kv' = fst kv /\ f (snd kv) = inr (snd kv')) items items' ->
  mapM_items f items = inr items'.
Proof.
  unfold mapM_items. intros H. apply mapM_Forall2.
  induction H as [|[k v] [k' v'] t t' [Hk Hv] _ IH]; constructor; [|exact IH].
  cbn in *. now rewrite Hv, Hk.
Qed.

Lemma is_json_list elems : is_json (VList elems) = forallb is_json elems.
Proof. reflexivity. Qed.

Lemma is_json_dict items :
  is_json (VDict items) = forallb (fun kv => is_json (snd kv)) items.
Proof.
  cbn [is_json]. induction items as [|[k v] t IH]; [reflexivity|].
  cbn [forallb snd]. now rewrite IH.
Qed.

Lemma plain_list elems : plain (VList elems) = forallb plain elems.
Proof. reflexivity. Qed.

Lemma plain_dict items :
  plain (VDict items) = negb (tagged items) && forallb (fun kv => plain (snd kv)) items.
Proof.
  cbn [plain]. f_equal. induction items as [|[k v] t IH]; [reflexivity|].
  cbn [forallb snd]. now rewrite IH.
Qed.

(** ** More on the decode direction *)

Section DecodeMore.

Variable py_repr : value -> string.
Variable Decimal128_str : Z -> Z -> string.
Variable Decimal128_new : value -> result (Z * Z).
Variable ObjectId_generate : list byte.

Local Abbreviation decode := (convert_json_to_bson Decimal128_new ObjectId_generate) (only parsing).

Lemma ObjectId_new_result oid d :
  ObjectId_new ObjectId_generate oid = inr d -> exists b, d = VObjectId b.
Proof.
  destruct oid; cbn; intros H; try discriminate.
  - injection H as <-. eauto.
  - destruct (String.length s =? 24)%nat; [|discriminate].
    destruct (ObjectIdLib.fromhex s); [|discriminate]. injection H as <-. eauto.
  - destruct (List.length data =? 12)%nat; [|discriminate]. injection H as <-. eauto.
  - destruct (List.length data =? 12)%nat; [|discriminate]. injection H as <-. eauto.
  - injection H as <-. eauto.
Qed.

Lemma Timestamp_new_result time inc d :
  Timestamp_new time inc = inr d ->
  exists t i, d = VTimestamp t i
              /\ (0 <= t < UPPERBOUND)%Z /\ (0 <= i < UPPERBOUND)%Z.
Proof.
  unfold Timestamp_new.
  destruct (as_int match time with VDatetime ms => VInt (ms / 1000) | _ => time end)
    as [t|]; [|discriminate].
  destruct (as_int inc) as [i|]; [|discriminate].
  destruct ((0 <=? t)%Z && (t <? UPPERBOUND)%Z) eqn:Ht; [|discriminate].
  destruct ((0 <=? i)%Z && (i <? UPPERBOUND)%Z) eqn:Hi; [|discriminate].
  intros H. injection H as <-. exists t, i.
  apply andb_true_iff in Ht, Hi. destruct Ht as [Ht1 Ht2], Hi as [Hi1 Hi2].
  apply Z.leb_le in Ht1, Hi1. apply Z.ltb_lt in Ht2, Hi2. auto.
Qed.

Lemma decode_tagged items d :
  tagged items = true -> decode (VDict items) = inr d -> special d.
Proof.
  unfold tagged. intros Htag H. cbn [convert_json_to_bson] in H.
  destruct (dict_has "$binary" items).
  { destruct (getitem (VDict items) "$binary") as [e|p]; [discriminate|].
    cbn [bind] in H. destruct (b64decode p); [discriminate|].
    cbn in H. injection H as <-. reflexivity. }
  destruct (dict_has "$oid" items).
  { destruct (getitem (VDict items) "$oid") as [e|p]; [discriminate|].
    cbn [bind] in H. apply ObjectId_new_result in H. destruct H as [b ->]. exact I. }
  destruct (dict_has "$ref" items && dict_has "$id" items).
  { destruct (getitem (VDict items) "$ref") as [e|c]; [discriminate|].
    cbn [bind] in H.
    destruct (getitem (VDict items) "$id") as [e|i]; [discriminate|].
    cbn [bind] in H.
    destruct (ObjectId_new ObjectId_generate i) as [e|o] eqn:Ho; [discriminate|].
    cbn [bind] in H.
    apply ObjectId_new_result in Ho. destruct Ho as [b ->].
    destruct c; cbn in H; try discriminate. injection H as <-. exact I. }
  destruct (dict_has "$timestamp" items).
  { destruct (getitem (VDict items) "$timestamp") as [e|ts]; [discriminate|].
    cbn [bind] in H.
    destruct (getitem ts "t") as [e|t]; [discriminate|]. cbn [bind] in H.
    destruct (getitem ts "i") as [e|i]; [discriminate|]. cbn [bind] in H.
    apply Timestamp_new_result in H. destruct H as (t' & i' & -> & _). exact I. }
  destruct (dict_has "$numberDecimal" items); [|discriminate].
  destruct (getitem (VDict items) "$numberDecimal") as [e|p]; [discriminate|].
  cbn [bind] in H.
  destruct (Decimal128_new p); [discriminate|]. cbn in H. injection H as <-. exact I.
Qed.

Lemma decode_special d : special d -> decode d = inr d.
Proof.
  destruct d; cbn; try contradiction; reflexivity.
Qed.

(** X4.  Decoding is idempotent: what [convert_json_to_bson] returns is
    returned unchanged when it is converted again, so a second conversion
    of an already converted tree does no harm. *)
Theorem decode_is_idempotent (data d : value) :
  decode data = inr d -> decode d = inr d.
Proof.
  revert d. induction data as [| | | | s | | | | | | | | l IH | items IH]
    using value_induction; intros d' Hd;
    try (cbn in Hd; injection Hd as <-; reflexivity).
  - cbn [convert_json_to_bson] in Hd. destruct (startswith s "$binary:") eqn:Hs.
    + destruct (b64decode (VStr (nth 1 (split ":" s) EmptyString))); [discriminate|].
      cbn in Hd. injection Hd as <-. reflexivity.
    + injection Hd as <-. cbn. now rewrite Hs.
  - rewrite decode_list in Hd.
    destruct (mapM decode l) as [e|ds] eqn:Hds; [discriminate|].
    cbn in Hd. injection Hd as <-. rewrite decode_list.
    apply mapM_inr_Forall2 in Hds.
    assert (Hds' : Forall2 (fun a b => decode a = inr b) ds ds).
    { clear -IH Hds. induction Hds as [|a b t t' Hab _ IHt]; [constructor|].
      inversion IH; subst. constructor; auto. }
    now rewrite (mapM_Forall2 _ _ _ Hds').
  - destruct (tagged items) eqn:Htag.
    + apply decode_special. now apply (decode_tagged items).
    + rewrite (decode_items _ _ _ Htag) in Hd.
      destruct (mapM_items decode items) as [e|items'] eqn:Hitems; [discriminate|].
      cbn in Hd. injection Hd as <-.
      rewrite decode_items.
      2:{ rewrite (tagged_keys items' items); [exact Htag|].
          now apply mapM_items_keys with (f := decode). }
      apply mapM_items_inr in Hitems.
      assert (Hagain : Forall2 (fun kv kv' => fst kv' = fst kv
                                              /\ decode (snd kv) = inr (snd kv'))
                         items' items').
      { clear -IH Hitems. induction Hitems as [|a b t t' [_ Hab] _ IHt]; [constructor|].
        inversion IH; subst. constructor; auto. }
      now rewrite (mapM_items_Forall2 _ _ _ Hagain).
Qed.

(** X5.  A JSON value that uses none of the tag vocabulary (no mapping with
    a tag key, no string with the legacy prefix) is returned as it is. *)
Theorem decode_leaves_plain_json (J : value) :
  plain J = true -> decode J = inr J.
Proof.
  induction J as [| | | | s | | | | | | | | l IH | items IH] using value_induction;
    intros HJ; try discriminate; try reflexivity.
  - cbn in HJ |- *. apply negb_true_iff in HJ. now rewrite HJ.
  - rewrite plain_list in HJ. rewrite decode_list.
    assert (Hl : Forall2 (fun a b => decode a = inr b) l l).
    { rewrite forallb_forall in HJ. clear -IH HJ.
      induction l as [|a t IHt]; [constructor|].
      inversion IH; subst. constructor.
      - apply H1, HJ. now left.
      - apply IHt; [assumption|]. intros x Hx. apply HJ. now right. }
    now rewrite (mapM_Forall2 _ _ _ Hl).
  - rewrite plain_dict in HJ. apply andb_true_iff in HJ. destruct HJ as [Htag Hall].
    apply negb_true_iff in Htag. rewrite (decode_items _ _ _ Htag).
    assert (Hd : Forall2 (fun kv kv' => fst kv' = fst kv
                                        /\ decode (snd kv) = inr (snd kv')) items items).
    { rewrite forallb_forall in Hall. clear -IH Hall.
      induction items as [|a t IHt]; [constructor|].
      inversion IH; subst. constructor.
      - split; [reflexivity|]. apply H1, Hall. now left.
      - apply IHt; [assumption|]. intros x Hx. apply Hall. now right. }
    now rewrite (mapM_items_Forall2 _ _ _ Hd).
Qed.

(** X6.  The conversion of a sequence is all or nothing: it succeeds
    exactly when every element converts, with the converted elements in
    order, and it raises exactly the exception of the first element that
    fails, whatever follows it. *)
Theorem decode_sequence_all_or_nothing (elems : list value) :
  (forall v,
      decode (VList elems) = inr v <->
      exists ds, v = VList ds /\ Forall2 (fun j d => decode j = inr d) elems ds)
  /\ (forall e,
         decode (VList elems) = inl e <->
         exists pre x post,
           elems = pre ++ x :: post
           /\ Forall (fun j => exists d, decode j = inr d) pre
           /\ decode x = inl e).
Proof.
  split.
  - intros v. rewrite decode_list. split.
    + destruct (mapM decode elems) as [e|ds] eqn:H; [discriminate|].
      cbn. intros Hv. injection Hv as <-. exists ds. split; [reflexivity|].
      now apply mapM_inr_Forall2.
    + intros (ds & -> & H). now rewrite (mapM_Forall2 _ _ _ H).
  - intros e. rewrite decode_list, <- mapM_inl_first.
    destruct (mapM decode elems); cbn; split; intros H; try discriminate;
      injection H as ->; reflexivity.
Qed.

End DecodeMore.

(** The decoded sample converts to itself. *)
Lemma decode_is_idempotent_on_sample :
  convert_json_to_bson sample_Decimal128_new sample_oid sample_json = inr sample_decoded
  /\ convert_json_to_bson sample_Decimal128_new sample_oid sample_decoded
     = inr sample_decoded.
Proof.
  split; [reflexivity|].
  exact (decode_is_idempotent sample_Decimal128_new sample_oid
           sample_json sample_decoded eq_refl).
Defined.

(** The plain sample, which has [$ref] without [$id], is left as it is. *)
Lemma decode_leaves_sample_plain :
  plain sample_plain = true
  /\ convert_json_to_bson sample_Decimal128_new sample_oid sample_plain
     = inr sample_plain.
Proof.
  split; [reflexivity|].
  exact (decode_leaves_plain_json sample_Decimal128_new sample_oid sample_plain eq_refl).
Defined.

(** ** More on the encode direction *)

Section EncodeMore.

Variable py_repr : value -> string.
Variable Decimal128_str : Z -> Z -> string.

Local Abbreviation encode := (encode py_repr Decimal128_str) (only parsing).

Lemma encode_result (D : value) :
  match encode D with
  | inl e => e = TypeError
  | inr J => is_json J = true
  end.
Proof.
  induction D as [| | | | | | | | | | | | l IH | items IH] using value_induction;
    try reflexivity.
  - rewrite encode_list.
    assert (H : match mapM encode l with
                | inl e => e = TypeError
                | inr js => forallb is_json js = true
                end).
    { induction IH as [|v t Hv _ IHt]; [reflexivity|].
      cbn [mapM]. destruct (encode v) as [e|j]; [exact Hv|]. cbn [bind].
      destruct (mapM encode t) as [e|js]; [exact IHt|]. cbn.
      now rewrite Hv, IHt. }
    destruct (mapM encode l); [exact H|]. cbn [bind ret]. now rewrite is_json_list.
  - rewrite encode_dict.
    assert (H : match mapM_items encode items with
                | inl e => e = TypeError
                | inr js => forallb (fun kv => is_json (snd kv)) js = true
                end).
    { unfold mapM_items. induction IH as [|[k v] t Hv _ IHt]; [reflexivity|].
      cbn [mapM fst snd] in *. destruct (encode v) as [e|j]; [exact Hv|]. cbn [bind ret].
      destruct (mapM _ t) as [e|js]; [exact IHt|]. cbn.
      now rewrite Hv, IHt. }
    destruct (mapM_items encode items); [exact H|].
    cbn [bind ret]. now rewrite is_json_dict.
Qed.

(** X8.  The encoder either raises [TypeError] or returns a value made of
    null, booleans, numbers, strings, lists and dicts only: what
    [bson_to_json] hands to the JSON writer never holds an object that the
    writer cannot write, and no other exception comes out of the encoding. *)
Theorem encode_gives_json_or_TypeError (D : value) :
  match encode D with
  | inl e => e = TypeError
  | inr J => is_json J = true
  end.
Proof.
  apply encode_result.
Qed.

(** X9.  A value made of null, booleans, numbers, strings, lists and dicts
    only is encoded to itself: documents without binary-native values pass
    through [bson_to_json] unchanged, and encoding an encoded tree again
    changes nothing. *)
Theorem encode_leaves_json (J : value) :
  is_json J = true -> encode J = inr J.
Proof.
  induction J as [| | | | | | | | | | | | l IH | items IH] using value_induction;
    intros HJ; try discriminate; try reflexivity.
  - rewrite is_json_list in HJ. rewrite encode_list.
    assert (Hl : Forall2 (fun a b => encode a = inr b) l l).
    { rewrite forallb_forall in HJ. clear -IH HJ.
      induction l as [|a t IHt]; [constructor|].
      inversion IH; subst. constructor.
      - apply H1, HJ. now left.
      - apply IHt; [assumption|]. intros x Hx. apply HJ. now right. }
    now rewrite (mapM_Forall2 _ _ _ Hl).
  - rewrite is_json_dict in HJ. rewrite encode_dict.
    assert (Hd : Forall2 (fun kv kv' => fst kv' = fst kv
                                        /\ encode (snd kv) = inr (snd kv')) items items).
    { rewrite forallb_forall in HJ. clear -IH HJ.
      induction items as [|a t IHt]; [constructor|].
      inversion IH; subst. constructor.
      - split; [reflexivity|]. apply H1, HJ. now left.
      - apply IHt; [assumption|]. intros x Hx. apply HJ. now right. }
    now rewrite (mapM_items_Forall2 _ _ _ Hd).
Qed.

End EncodeMore.

(** The plain sample is encoded to itself. *)
Lemma encode_leaves_sample_plain :
  is_json sample_plain = true
  /\ encode sample_repr sample_Decimal128_str sample_plain = inr sample_plain.
Proof.
  split; [reflexivity|].
  exact (encode_leaves_json sample_repr sample_Decimal128_str sample_plain eq_refl).
Defined.

(** ** More on the payload filter *)

Lemma visit_elems_untouched f l :
  Forall (fun v => is_container v = true -> f v = untouched v) l ->
  visit_elems f l = untouched l.
Proof.
  induction 1 as [|v t Hv _ IH]; [reflexivity|].
  cbn [visit_elems]. rewrite IH.
  destruct (is_container v); [rewrite (Hv eq_refl)|]; reflexivity.
Qed.

Lemma visit_items_untouched f l :
  Forall (fun kv => is_container (snd kv) = true -> f (snd kv) = untouched (snd kv)) l ->
  visit_items f None l = untouched l.
Proof.
  induction 1 as [|[k v] t Hv _ IH]; [reflexivity|].
  cbn [visit_items snd] in *. rewrite IH.
  destruct (is_container v); [rewrite (Hv eq_refl)|]; reflexivity.
Qed.

Lemma overwrite_keys fresh l : map fst (overwrite fresh l) = map fst l.
Proof.
  destruct fresh as [c|]; [|now destruct l].
  induction l as [|[k v] t IH]; [reflexivity|].
  cbn [overwrite]. destruct (String.eqb k "Content"); [reflexivity|].
  cbn [map fst]. now rewrite IH.
Qed.

(** The loops change values only: the keys of a mapping, their order and
    the length of a sequence stay, also when an exception ends the loop. *)
Lemma visit_items_keys f fresh l :
  map fst (state (visit_items f fresh l)) = map fst l.
Proof.
  revert fresh. induction l as [|[k v] t IH]; intros fresh; [reflexivity|].
  cbn [visit_items].
  destruct fresh as [c|].
  - destruct (String.eqb k "Content").
    + cbn [state map fst]. now rewrite IH.
    + destruct (raised (if is_container v then f v else untouched v));
        cbn [state map fst]; [now rewrite overwrite_keys | now rewrite IH].
  - destruct (String.eqb k "Content");
      destruct (raised (if is_container v then f v else untouched v));
      cbn [state map fst]; try (now rewrite overwrite_keys); now rewrite IH.
Qed.

Lemma visit_elems_length f l :
  List.length (state (visit_elems f l)) = List.length l.
Proof.
  induction l as [|v t IH]; [reflexivity|].
  cbn [visit_elems].
  destruct (raised (if is_container v then f v else untouched v));
    cbn [state List.length]; [reflexivity | now rewrite IH].
Qed.

Section FilterMore.

Variable json_loads : string -> result value.
Variable json_dumps : value -> string.
Variable utf8_decode : list byte -> result string.
Variable utf8_encode : string -> list byte.

Local Abbreviation process_json :=
  (process_json json_loads json_dumps utf8_decode utf8_encode) (only parsing).
Local Abbreviation remove_props :=
  (remove_props json_loads json_dumps utf8_decode utf8_encode) (only parsing).

(** X10.  A tree in which no mapping has the key [Content] is left exactly
    as it is, with nothing printed and nothing raised, and [remove_props]
    writes it back unchanged and reports success. *)
Theorem process_json_leaves_content_free_trees (data : value) (search_key : string) :
  content_free data = true ->
  process_json data search_key = untouched data
  /\ remove_props (inr data) search_key = FileRun (Some data) [Success].
Proof.
  intros H.
  assert (E : process_json data search_key = untouched data).
  { revert H. induction data as [| | | | | | | | | | | | l IH | items IH]
      using value_induction; intros H; try reflexivity.
    - cbn [Model.process_json].
      rewrite visit_elems_untouched; [reflexivity|].
      change (content_free (VList l)) with (forallb content_free l) in H.
      rewrite forallb_forall in H. rewrite Forall_forall in *.
      intros v Hv _. apply IH; auto.
    - cbn [content_free] in H. apply andb_true_iff in H. destruct H as [Hc Hall].
      apply negb_true_iff in Hc. unfold dict_has in Hc.
      cbn [Model.process_json].
      destruct (dict_get "Content" items); [discriminate|].
      rewrite visit_items_untouched; [reflexivity|].
      clear Hc. induction items as [|[k v] t IHt]; [constructor|].
      apply andb_true_iff in Hall. destruct Hall as [Hv Ht].
      inversion IH; subst. constructor; [intros _; now apply H1 | now apply IHt]. }
  split; [exact E|]. unfold Model.remove_props. now rewrite E.
Qed.

(** X11.  [process_json] changes values only: from a mapping it returns a
    mapping with the same keys in the same order, from a sequence a
    sequence of the same length, and anything else unchanged, also when an
    exception ends the pass. *)
Theorem process_json_keeps_keys_and_lengths (search_key : string) :
  (forall items,
      exists items',
        state (process_json (VDict items) search_key) = VDict items'
        /\ map fst items' = map fst items)
  /\ (forall elems,
         exists elems',
           state (process_json (VList elems) search_key) = VList elems'
           /\ List.length elems' = List.length elems)
  /\ (forall data,
         is_container data = false ->
         process_json data search_key = untouched data).
Proof.
  repeat split.
  - intros items. cbn [Model.process_json].
    destruct (dict_get "Content" items) as [content|].
    + destruct (Model.rewrite_content json_loads json_dumps utf8_decode utf8_encode
                  search_key content);
        cbn [state]; eexists; split; try reflexivity.
      apply visit_items_keys.
    + cbn [state]. eexists. split; [reflexivity|]. apply visit_items_keys.
  - intros elems. cbn [Model.process_json state].
    eexists. split; [reflexivity|]. apply visit_elems_length.
  - intros data H. destruct data; try discriminate; reflexivity.
Qed.

(** X12.  A [Content] that is no mapping (a string, a number, null, a
    list) has no [get]: the [AttributeError] leaves [process_json] with the
    node unchanged and nothing printed, and [remove_props] does not write
    the file back. *)
Theorem content_that_is_no_mapping_aborts items content (search_key : string) :
  dict_get "Content" items = Some content ->
  (forall c, content <> VDict c) ->
  process_json (VDict items) search_key = Outcome (VDict items) [] (Some AttributeError)
  /\ remove_props (inr (VDict items)) search_key
     = FileRun None [UnexpectedError AttributeError].
Proof.
  intros Hc Hn.
  assert (E : process_json (VDict items) search_key
              = Outcome (VDict items) [] (Some AttributeError)).
  { cbn [Model.process_json]. rewrite Hc.
    destruct content; try reflexivity. now destruct (Hn items0). }
  split; [exact E|]. unfold Model.remove_props. now rewrite E.
Qed.

(** The condition of the comprehension raises what [offending] says. *)
Lemma keep_elem_offending search_key elem e :
  offending elem = Some e -> keep_elem search_key elem = inl e.
Proof.
  destruct elem; cbn; intros H; try (injection H as <-; reflexivity).
  unfold keep_elem. cbn [get].
  destruct (dict_get "AssetName" items) as [[]|]; try discriminate;
    injection H as <-; reflexivity.
Qed.

Lemma filter_elements_offending search_key pre bad post e :
  forallb is_element pre = true ->
  offending bad = Some e ->
  filter_elements search_key (pre ++ bad :: post) = inl e.
Proof.
  intros Hpre Hbad. induction pre as [|a t IH]; cbn [app filter_elements].
  - now rewrite (keep_elem_offending _ _ _ Hbad).
  - cbn [forallb] in Hpre. apply andb_true_iff in Hpre. destruct Hpre as [Ha Ht].
    rewrite (keep_elem_kept _ _ Ha), (IH Ht). reflexivity.
Qed.

(** X13.  One ill-formed element ends the whole pass: when the decoded
    [Elements] hold, after elements of the expected shape, an element that
    is no mapping or whose [AssetName] is null, a boolean or a number, the
    exception of the filter condition ([AttributeError], [TypeError]) is
    outside the handler and leaves [process_json]; the node keeps its
    [Content] and nothing is printed. *)
Theorem ill_formed_element_aborts items content d pre bad post e search_key :
  dict_get "Content" items = Some content ->
  payload json_loads utf8_decode content = inr (VDict d) ->
  dict_get "Elements" d = Some (VList (pre ++ bad :: post)) ->
  forallb is_element pre = true ->
  offending bad = Some e ->
  process_json (VDict items) search_key = Outcome (VDict items) [] (Some e).
Proof.
  intros Hc Hp Hd Hpre Hbad. cbn [Model.process_json]. rewrite Hc.
  rewrite (rewrite_content_decoded _ _ _ _ _ _ _ Hp).
  unfold filter_payload. cbn [contains bind ret getitem].
  rewrite (dict_has_get _ _ _ Hd), Hd. cbn [bind ret].
  now rewrite (filter_elements_offending _ _ _ _ _ Hpre Hbad).
Qed.

(** X14.  Whatever the elements are, when the filter completes its result
    is the sequence of the elements on which its condition holds, in their
    order, and filtering that result again returns it unchanged. *)
Theorem filter_elements_is_a_stable_selection search_key elems l :
  filter_elements search_key elems = inr l ->
  l = filter (passes search_key) elems
  /\ filter_elements search_key l = inr l.
Proof.
  revert l. induction elems as [|a t IH]; intros l H; cbn [filter_elements] in H.
  - injection H as <-. split; reflexivity.
  - destruct (keep_elem search_key a) as [e|keep] eqn:Ha; [discriminate|].
    cbn [bind] in H.
    destruct (filter_elements search_key t) as [e|t'] eqn:Ht; [discriminate|].
    cbn in H. injection H as <-.
    destruct (IH t' eq_refl) as [Hsel Hagain].
    cbn [filter]. unfold passes at 1. rewrite Ha.
    destruct keep.
    + split; [now rewrite <- Hsel|].
      cbn [filter_elements]. now rewrite Ha, Hagain.
    + split; assumption.
Qed.

(** X15.  A payload that decodes to an object without a list under
    [Elements] is not filtered but is still rewritten: [Content] receives
    the base64 form of the object as [json.dumps] writes it. *)
Theorem payload_without_elements_is_rewritten items content d search_key :
  dict_get "Content" items = Some content ->
  payload json_loads utf8_decode content = inr (VDict d) ->
  without_elements d = true ->
  exists items',
    state (process_json (VDict items) search_key) = VDict items'
    /\ dict_get "Content" items'
       = Some (binary_tag (Base64.b64encode (utf8_encode (json_dumps (VDict d))))).
Proof.
  intros Hc Hp Hd.
  apply process_json_rewritten with (content := content); [exact Hc|].
  rewrite (rewrite_content_decoded _ _ _ _ _ _ _ Hp).
  unfold filter_payload, without_elements in *. cbn [contains bind ret getitem].
  unfold dict_has. destruct (dict_get "Elements" d) as [v|]; [|reflexivity].
  cbn [bind ret]. destruct v; try discriminate; reflexivity.
Qed.

(** X16.  A [Content] mapping that has no [$binary] key is read as the
    empty payload: when the text layer rejects the empty text, as
    [json.loads] does, the failure is reported and the node is left
    unchanged. *)
Theorem content_without_binary_is_reported items c search_key :
  dict_get "Content" items = Some (VDict c) ->
  dict_get "$binary" c = None ->
  utf8_decode [] = inr EmptyString ->
  json_loads EmptyString = inl JSONDecodeError ->
  process_json (VDict items) search_key = Outcome (VDict items) [JSONDecodeError] None.
Proof.
  intros Hc Hb Hu Hl. cbn [Model.process_json]. rewrite Hc.
  unfold Model.rewrite_content. cbn [get]. rewrite Hb. cbn [ret].
  change (b64decode (VStr "")) with (@inr exn (list byte) []).
  cbn [bind]. rewrite Hu. cbn [bind]. rewrite Hl. reflexivity.
Qed.

End FilterMore.

(** The plain sample has no [Content] and is left as it is. *)
Lemma process_json_leaves_sample_plain :
  content_free sample_plain = true
  /\ process_json sample_loads sample_dumps sample_utf8_decode sample_utf8_encode
       sample_plain "pet" = untouched sample_plain.
Proof.
  split; [reflexivity|].
  exact (proj1 (process_json_leaves_content_free_trees sample_loads sample_dumps
                  sample_utf8_decode sample_utf8_encode sample_plain "pet" eq_refl)).
Defined.

(** A node whose [Content] is a string. *)
Lemma content_string_aborts :
  process_json sample_loads sample_dumps sample_utf8_decode sample_utf8_encode
    (VDict [("Content", VStr "UEFZTE9BRA=="); ("Inner", VDict sample_node)]) "pet"
  = Outcome (VDict [("Content", VStr "UEFZTE9BRA=="); ("Inner", VDict sample_node)])
      [] (Some AttributeError).
Proof.
  refine (proj1 (content_that_is_no_mapping_aborts sample_loads sample_dumps
                   sample_utf8_decode sample_utf8_encode
                   [("Content", VStr "UEFZTE9BRA=="); ("Inner", VDict sample_node)]
                   (VStr "UEFZTE9BRA==") "pet" eq_refl _)).
  intros c H. discriminate H.
Defined.

(** The payload [BROKEN]: its second element is null. *)
Lemma null_element_aborts :
  payload sample_reader sample_utf8_decode (VDict [("$binary", VStr "QlJPS0VO")])
  = inr (VDict [("Elements", VList [green_hat; VNone; red_pet_hat])])
  /\ process_json sample_reader sample_dumps sample_utf8_decode sample_utf8_encode
       (VDict [("Content", VDict [("$binary", VStr "QlJPS0VO")])]) "pet"
     = Outcome (VDict [("Content", VDict [("$binary", VStr "QlJPS0VO")])])
         [] (Some AttributeError).
Proof.
  split; [reflexivity|].
  exact (ill_formed_element_aborts sample_reader sample_dumps sample_utf8_decode
           sample_utf8_encode
           [("Content", VDict [("$binary", VStr "QlJPS0VO")])]
           (VDict [("$binary", VStr "QlJPS0VO")])
           [("Elements", VList [green_hat; VNone; red_pet_hat])]
           [green_hat] VNone [red_pet_hat] AttributeError "pet"
           eq_refl eq_refl eq_refl eq_refl eq_refl).
Defined.

(** The elements of the example: the selection is stable. *)
Lemma filter_elements_on_the_example :
  filter_elements "pet" [red_pet_hat; blue_hat; green_hat] = inr [green_hat]
  /\ filter_elements "pet" [green_hat] = inr [green_hat].
Proof.
  split; [reflexivity|].
  exact (proj2 (filter_elements_is_a_stable_selection "pet"
                  [red_pet_hat; blue_hat; green_hat] [green_hat] eq_refl)).
Defined.

(** The payload [BARE] is written back as [json.dumps] writes it. *)
Lemma bare_payload_is_rewritten :
  without_elements [("Name", VStr "wardrobe")] = true
  /\ exists items',
      state (process_json sample_reader sample_dumps sample_utf8_decode
               sample_utf8_encode
               (VDict [("Content", VDict [("$binary", VStr "QkFSRQ==")])]) "pet")
      = VDict items'
      /\ dict_get "Content" items'
         = Some (binary_tag
                   (Base64.b64encode
                      (sample_utf8_encode
                         (sample_dumps (VDict [("Name", VStr "wardrobe")]))))).
Proof.
  split; [reflexivity|].
  exact (payload_without_elements_is_rewritten sample_reader sample_dumps
           sample_utf8_decode sample_utf8_encode
           [("Content", VDict [("$binary", VStr "QkFSRQ==")])]
           (VDict [("$binary", VStr "QkFSRQ==")])
           [("Name", VStr "wardrobe")] "pet" eq_refl eq_refl eq_refl).
Defined.

(** A [Content] that is an empty mapping. *)
Lemma empty_content_is_reported :
  process_json sample_loads sample_dumps sample_utf8_decode sample_utf8_encode
    (VDict [("Content", VDict [])]) "pet"
  = Outcome (VDict [("Content", VDict [])]) [JSONDecodeError] None.
Proof.
  exact (content_without_binary_is_reported sample_loads sample_dumps
           sample_utf8_decode sample_utf8_encode
           [("Content", VDict [])] [] "pet" eq_refl eq_refl eq_refl eq_refl).
Defined.

(** ** More on the file converters *)

Section FilesMore.

Variable py_repr : value -> string.
Variable Decimal128_str : Z -> Z -> string.
Variable Decimal128_new : value -> result (Z * Z).
Variable ObjectId_generate : list byte.
Variable bson_encode : value -> result (list byte).
Variable bson_decode_all : list byte -> result (list value).

Local Abbreviation decode := (convert_json_to_bson Decimal128_new ObjectId_generate) (only parsing).
Local Abbreviation encode := (encode py_repr Decimal128_str) (only parsing).
Local Abbreviation json_to_bson :=
  (json_to_bson Decimal128_new ObjectId_generate bson_encode) (only parsing).

Lemma write_docs_stops docs records bad rest e :
  Forall2 (fun d r => bson_encode d = inr r) docs records ->
  bson_encode bad = inl e ->
  forall file,
    write_docs bson_encode (docs ++ bad :: rest) file
    = (file ++ List.concat records, Some e).
Proof.
  intros H Hbad. induction H as [|d r t t' Hdr _ IH]; intros file;
    cbn [app write_docs List.concat].
  - now rewrite Hbad, app_nil_r.
  - rewrite Hdr, IH, <- app_assoc. reflexivity.
Qed.

Lemma write_docs_complete docs file file' :
  write_docs bson_encode docs file = (file', None) ->
  exists records,
    Forall2 (fun d r => bson_encode d = inr r) docs records
    /\ file' = file ++ List.concat records.
Proof.
  revert file. induction docs as [|d t IH]; intros file H; cbn [write_docs] in H.
  - injection H as <-. exists []. split; [constructor | now rewrite app_nil_r].
  - destruct (bson_encode d) as [e|r] eqn:Hd; [discriminate|].
    destruct (IH _ H) as (records & Hrec & ->).
    exists (r :: records). split; [now constructor|].
    cbn [List.concat]. now rewrite app_assoc.
Qed.

(** X17.  When a document of a JSON sequence cannot be encoded,
    [json_to_bson] has already replaced the output file: the file holds the
    records of the documents before the failing one and nothing else, the
    earlier content of the file is gone, a message is printed and no
    exception is raised. *)
Theorem failing_document_leaves_a_partial_file js docs bad rest records e before :
  Forall2 (fun j d => decode j = inr d) js (docs ++ bad :: rest) ->
  Forall2 (fun d r => bson_encode d = inr r) docs records ->
  bson_encode bad = inl e ->
  json_to_bson (inr (VList js)) before
  = Conversion (Some (List.concat records)) [handle e] None.
Proof.
  intros Hdec Henc Hbad. unfold Model.json_to_bson.
  rewrite decode_list, (mapM_Forall2 _ _ _ Hdec). cbn [bind ret].
  now rewrite (write_docs_stops _ _ _ _ _ Henc Hbad).
Qed.

(** X18.  The success message is proof of a complete file: when
    [json_to_bson] prints it, the input was read and converted, and the
    output file holds exactly the records of all converted documents, in
    order (the one record of the value when it is no sequence). *)
Theorem success_notice_means_a_complete_file loaded before :
  notices (json_to_bson loaded before) = [Converted] ->
  exists data converted_data,
    loaded = inr data
    /\ decode data = inr converted_data
    /\ match converted_data with
       | VList docs =>
           exists records,
             Forall2 (fun d r => bson_encode d = inr r) docs records
             /\ output_file (json_to_bson loaded before) = Some (List.concat records)
       | _ =>
           exists record,
             bson_encode converted_data = inr record
             /\ output_file (json_to_bson loaded before) = Some record
       end.
Proof.
  unfold Model.json_to_bson, handle.
  destruct loaded as [e|data].
  { cbn. destruct (is_IOError e || is_ValueError e); discriminate. }
  destruct (decode data) as [e|converted_data] eqn:Hdec.
  { cbn. destruct (is_IOError e || is_ValueError e); discriminate. }
  intros H. exists data, converted_data. split; [reflexivity|].
  split; [first [reflexivity | exact Hdec]|].
  destruct converted_data;
    try (destruct (bson_encode _) as [e|record] eqn:Henc;
         [cbn in H; destruct (is_IOError e || is_ValueError e); discriminate
         | exists record; split; reflexivity]).
  destruct (write_docs bson_encode elems []) as [file [e|]] eqn:Hw.
  { cbn in H. destruct (is_IOError e || is_ValueError e); discriminate. }
  destruct (write_docs_complete _ _ _ Hw) as (records & Hrec & ->).
  exists records. split; [exact Hrec | reflexivity].
Qed.

End FilesMore.

(** Two documents, and a number where a third is expected. *)
Lemma partial_file_on_sample :
  json_to_bson sample_Decimal128_new sample_oid sample_bson_encode
    (inr (VList [VDict []; VDict []; VInt 5; VDict []])) (Some [x01; x02])
  = Conversion (Some (EMPTY_RECORD ++ EMPTY_RECORD)) [Unexpected InvalidDocument] None.
Proof.
  refine (failing_document_leaves_a_partial_file sample_Decimal128_new sample_oid
            sample_bson_encode
            [VDict []; VDict []; VInt 5; VDict []]
            [VDict []; VDict []] (VInt 5) [VDict []]
            [EMPTY_RECORD; EMPTY_RECORD] InvalidDocument (Some [x01; x02]) _ _ eq_refl).
  - repeat constructor.
  - repeat constructor.
Defined.

(** Two empty documents are written in full. *)
Lemma complete_file_on_sample :
  notices (json_to_bson sample_Decimal128_new sample_oid sample_bson_encode
             (inr (VList [VDict []; VDict []])) None) = [Converted]
  /\ exists data converted_data,
      @inr exn value (VList [VDict []; VDict []]) = inr data
      /\ convert_json_to_bson sample_Decimal128_new sample_oid data = inr converted_data
      /\ match converted_data with
         | VList docs =>
             exists records,
               Forall2 (fun d r => sample_bson_encode d = inr r) docs records
               /\ output_file (json_to_bson sample_Decimal128_new sample_oid
                                 sample_bson_encode
                                 (inr (VList [VDict []; VDict []])) None)
                  = Some (List.concat records)
         | _ =>
             exists record,
               sample_bson_encode converted_data = inr record
               /\ output_file (json_to_bson sample_Decimal128_new sample_oid
                                 sample_bson_encode
                                 (inr (VList [VDict []; VDict []])) None)
                  = Some record
         end.
Proof.
  split; [reflexivity|].
  exact (success_notice_means_a_complete_file sample_Decimal128_new sample_oid
           sample_bson_encode (inr (VList [VDict []; VDict []])) None eq_refl).
Defined.

(** ** The default output name *)

Lemma rpartition_none sep s : char_free sep s = true -> rpartition sep s = None.
Proof.
  induction s as [|c rest IH]; [reflexivity|].
  cbn [char_free rpartition]. intros H. apply andb_true_iff in H. destruct H as [Hc Hrest].
  apply negb_true_iff in Hc. now rewrite (IH Hrest), Hc.
Qed.

Lemma rpartition_last sep base ext :
  char_free sep ext = true ->
  rpartition sep (base ++ String sep ext) = Some (base, ext).
Proof.
  intros H. induction base as [|c rest IH]; cbn [append rpartition].
  - now rewrite (rpartition_none _ _ H), Ascii.eqb_refl.
  - now rewrite IH.
Qed.

(** X21.  The default output name replaces what follows the last dot of
    the input path by [json], and appends [.json] to a path without a dot.
    The last dot is looked for in the whole path: when the file name has no
    extension and a directory has a dot, the name is cut in the directory.
    [main] uses the name when [--output] is missing or empty. *)
Theorem default_output_name_cuts_at_the_last_dot :
  (forall path,
      char_free "." path = true ->
      generate_default_output_name path = (path ++ ".json")%string)
  /\ (forall base ext,
         char_free "." ext = true ->
         generate_default_output_name (base ++ "." ++ ext)%string
         = (base ++ ".json")%string)
  /\ (forall file,
         main_output_name None file = generate_default_output_name file
         /\ main_output_name (Some EmptyString) file = generate_default_output_name file)
  /\ (forall output file,
         output <> EmptyString -> main_output_name (Some output) file = output).
Proof.
  repeat split.
  - intros path H. unfold generate_default_output_name, rsplit1.
    now rewrite (rpartition_none _ _ H).
  - intros base ext H. unfold generate_default_output_name, rsplit1.
    cbn [append]. now rewrite (rpartition_last _ _ _ H).
  - intros output file H. destruct output; [contradiction | reflexivity].
Qed.

(** A dump without extension in a directory with a dot. *)
Lemma default_output_name_of_dotted_directory :
  char_free "." "v2/dump" = true
  /\ generate_default_output_name "backup.v2/dump" = "backup.json".
Proof.
  split; [reflexivity|].
  exact (proj1 (proj2 default_output_name_cuts_at_the_last_dot) "backup" "v2/dump" eq_refl).
Defined.

(** ** [convert_file_to_base64] and [download_content] *)

Lemma length_b64encode_mod4 data :
  (String.length (Base64.b64encode data) mod 4 = 0)%nat.
Proof.
  induction data as [|b1|b1 b2|b1 b2 b3 rest IH] using Base64Facts.list_ind3;
    try reflexivity.
  cbn [Base64.b64encode String.length].
  change (S (S (S (S (String.length (Base64.b64encode rest))))))
    with (4 + String.length (Base64.b64encode rest))%nat.
  rewrite <- (Nat.Div0.add_mod_idemp_r 4 _ 4), IH. reflexivity.
Qed.

(** X22.  For a file that is read, [convert_file_to_base64] returns the
    base64 text of its content: the branch that appends padding is never
    taken, since the text always has a length that is a multiple of four,
    and decoding the returned text gives the content back byte for byte. *)
Theorem convert_file_to_base64_is_the_base64_text (file_content : list byte) :
  convert_file_to_base64 (FileContent file_content) = Base64.b64encode file_content
  /\ (String.length (convert_file_to_base64 (FileContent file_content)) mod 4 = 0)%nat
  /\ Base64.a2b_base64 (convert_file_to_base64 (FileContent file_content))
     = inr file_content.
Proof.
  assert (E : convert_file_to_base64 (FileContent file_content)
              = Base64.b64encode file_content).
  { unfold convert_file_to_base64. cbv zeta.
    now rewrite length_b64encode_mod4. }
  rewrite E. repeat split.
  - apply length_b64encode_mod4.
  - apply Base64Facts.a2b_b64encode.
Qed.

Lemma last_split_char_free sep s :
  char_free sep (last (split sep s) EmptyString) = true.
Proof.
  induction s as [|c rest IH]; [reflexivity|].
  cbn [split]. destruct (Ascii.eqb c sep) eqn:Hc.
  - destruct (split sep rest) as [|h t] eqn:Hs; [reflexivity|]. exact IH.
  - destruct (split sep rest) as [|h t] eqn:Hs.
    + cbn. now rewrite Hc.
    + destruct t as [|h' t'].
      * cbn in IH |- *. now rewrite Hc, IH.
      * exact IH.
Qed.


Lemma split_char_free sep s : char_free sep s = true -> split sep s = [s].
Proof.
  induction s as [|c rest IH]; [reflexivity|].
  cbn [char_free split]. intros H. apply andb_true_iff in H. destruct H as [Hc Hrest].
  apply negb_true_iff in Hc. now rewrite Hc, (IH Hrest).
Qed.

Lemma split_last_segment sep before name :
  char_free sep name = true ->
  exists h t,
    split sep (before ++ String sep name)%string = h :: t
    /\ t <> [] /\ last t EmptyString = name.
Proof.
  intros H. induction before as [|c rest IH]; cbn [append split].
  - rewrite Ascii.eqb_refl, (split_char_free _ _ H).
    exists EmptyString, [name]. now repeat split.
  - destruct IH as (h & t & -> & Ht & Hlast).
    destruct (Ascii.eqb c sep).
    + exists EmptyString, (h :: t). repeat split; [discriminate|].
      destruct t; [contradiction | exact Hlast].
    + exists (String c h), t. now repeat split.
Qed.

Lemma path_join_data name :
  char_free "/" name = true -> path_join "data" name = ("data/" ++ name)%string.
Proof.
  intros H. unfold path_join.
  destruct name as [|c rest]; [reflexivity|].
  cbn [char_free] in H. apply andb_true_iff in H. destruct H as [Hc _].
  apply negb_true_iff in Hc.
  unfold startswith. cbn [String.prefix].
  destruct (ascii_dec "/" c) as [<-|_]; [|reflexivity].
  now rewrite Ascii.eqb_refl in Hc.
Qed.

(** X23.  [download_content] writes the download under the text that
    follows the last slash of the URL, directly inside [data]: the part of
    the path after [data/] never holds a slash, and it is empty for a URL
    that ends in a slash, where the path is the directory itself. *)
Theorem download_path_keeps_the_last_segment :
  (forall url,
      exists name,
        char_free "/" name = true /\ download_path url = ("data/" ++ name)%string)
  /\ (forall before name,
         char_free "/" name = true ->
         download_path (before ++ "/" ++ name)%string = ("data/" ++ name)%string)
  /\ (forall url,
         char_free "/" url = true -> download_path url = ("data/" ++ url)%string).
Proof.
  repeat split.
  - intros url. exists (last (split "/" url) EmptyString).
    split; [apply last_split_char_free|].
    unfold download_path. cbv zeta. apply path_join_data, last_split_char_free.
  - intros before name H. unfold download_path. cbv zeta.
    destruct (split_last_segment "/" before name H) as (h & t & E & Ht & Hlast).
    cbn [append]. rewrite E.
    replace (last (h :: t) EmptyString) with name
      by (destruct t; [contradiction | now rewrite <- Hlast]).
    now apply path_join_data.
  - intros url H. unfold download_path. cbv zeta.
    rewrite (split_char_free _ _ H). cbn [last]. now apply path_join_data.
Qed.

(** The path of an asset of a content server, and of a URL that ends in a
    slash. *)
Lemma download_path_of_an_asset :
  (char_free "/" "hat.swf" = true
   /\ download_path "https://cdn.example/swf/hat.swf" = "data/hat.swf")
  /\ (char_free "/" "" = true /\ download_path "https://cdn.example/swf/" = "data/").
Proof.
  split; (split; [reflexivity|]).
  - exact (proj1 (proj2 download_path_keeps_the_last_segment)
             "https://cdn.example/swf" "hat.swf" eq_refl).
  - exact (proj1 (proj2 download_path_keeps_the_last_segment)
             "https://cdn.example/swf" "" eq_refl).
Defined.

(** ** The prompt and the output file of [bson_to_json] *)

Lemma lstrip_spaces before c rest :
  all_space before = true -> isspace c = false ->
  lstrip (before ++ c :: rest) = c :: rest.
Proof.
  intros H Hc. induction before as [|b before IH]; cbn [app lstrip].
  - now rewrite Hc.
  - cbn in H. apply andb_true_iff in H. destruct H as [Hb H].
    rewrite Hb. now apply IH.
Qed.

Lemma rstrip_spaces after : all_space after = true -> rstrip after = [].
Proof.
  induction after as [|c rest IH]; [reflexivity|].
  cbn [rstrip]. intros H. cbn in H. apply andb_true_iff in H. destruct H as [Hc H].
  now rewrite (IH H), Hc.
Qed.

Lemma lstrip_decompose s :
  exists before, all_space before = true /\ s = before ++ lstrip s.
Proof.
  induction s as [|c rest IH].
  - now exists [].
  - cbn [lstrip]. destruct (isspace c) eqn:Hc.
    + destruct IH as (before & H & E). exists (c :: before). split.
      * cbn. now rewrite Hc.
      * cbn [app]. now rewrite <- E.
    + now exists [].
Qed.

Lemma rstrip_decompose s :
  exists after, all_space after = true /\ s = rstrip s ++ after.
Proof.
  induction s as [|c rest IH].
  - now exists [].
  - destruct IH as (after & H & E). cbn [rstrip].
    destruct (rstrip rest) as [|k kept] eqn:Hr.
    + cbn [app] in E. subst rest. destruct (isspace c) eqn:Hc.
      * exists (c :: after). split; [|reflexivity].
        cbn. now rewrite Hc.
      * now exists after.
    + exists after. split; [exact H|]. cbn [app] in E |- *. now rewrite <- E.
Qed.

Lemma yes_is_no_space c : c = SMALL_Y \/ c = CAPITAL_Y -> isspace c = false.
Proof. now intros [->| ->]. Qed.

Lemma differs_false a b : differs a b = false <-> a = b.
Proof.
  unfold differs. destruct (list_eq_dec N.eq_dec a b); split; congruence.
Qed.

Lemma lower_strip_yes str_lower user_input :
  lowers_to_y str_lower ->
  differs (str_lower (strip user_input)) [SMALL_Y] = false <-> says_yes user_input.
Proof.
  intros Hlow. rewrite differs_false, (Hlow (strip user_input)). split.
  - intros E.
    destruct (lstrip_decompose user_input) as (before & Hb & E1).
    destruct (rstrip_decompose (lstrip user_input)) as (after & Ha & E2).
    assert (E' : exists c, (c = SMALL_Y \/ c = CAPITAL_Y) /\ strip user_input = [c]).
    { destruct E as [E|E]; [exists SMALL_Y | exists CAPITAL_Y]; auto. }
    destruct E' as (c & Hc & Ec). unfold strip in Ec.
    exists before, after, c. repeat split; try assumption.
    rewrite E1 at 1. now rewrite E2, Ec.
  - intros (before & after & c & Hb & Ha & Hc & ->).
    unfold strip. rewrite (lstrip_spaces _ _ _ Hb (yes_is_no_space _ Hc)).
    cbn [rstrip]. rewrite (rstrip_spaces _ Ha), (yes_is_no_space _ Hc).
    destruct Hc as [->| ->]; auto.
Qed.

(** The ASCII case mapping lowers only [y] and [Y] to [y]. *)
Lemma ascii_lower_to_y : lowers_to_y ascii_lower.
Proof.
  intros s. unfold ascii_lower, SMALL_Y, CAPITAL_Y.
  destruct s as [|c [|c' rest]]; cbn [map].
  - split; [discriminate | intros [H|H]; discriminate].
  - destruct ((65 <=? c) && (c <=? 90))%N eqn:Hc.
    + apply andb_true_iff in Hc. destruct Hc as [H1 H2].
      apply N.leb_le in H1, H2.
      split.
      * intros H. injection H as H. right. f_equal. lia.
      * intros [H|H]; injection H as ->; [lia | reflexivity].
    + split.
      * intros H. injection H as ->. now left.
      * intros [H|H]; injection H as ->; [reflexivity | discriminate Hc].
  - split; [discriminate | intros [H|H]; discriminate].
Qed.

Lemma bson_to_json_run_prompt py_repr Decimal128_str bson_decode_all str_lower
      user_input read validate :
  bson_to_json_run py_repr Decimal128_str bson_decode_all str_lower true false
    user_input read validate
  = if differs (str_lower (strip user_input)) [SMALL_Y]
    then JsonRun true Kept None
    else convert_and_write py_repr Decimal128_str bson_decode_all true read validate.
Proof. reflexivity. Qed.

Lemma bson_to_json_run_silent py_repr Decimal128_str bson_decode_all str_lower
      output_exists overwrite user_input read validate :
  output_exists = false \/ overwrite = true ->
  bson_to_json_run py_repr Decimal128_str bson_decode_all str_lower output_exists
    overwrite user_input read validate
  = convert_and_write py_repr Decimal128_str bson_decode_all false read validate.
Proof.
  unfold bson_to_json_run. intros [-> | ->]; [reflexivity|].
  now rewrite andb_false_r.
Qed.

Section BsonToJsonFacts.

Variable py_repr : value -> string.
Variable Decimal128_str : Z -> Z -> string.
Variable bson_decode_all : list byte -> result (list value).
Variable str_lower : list N -> list N.

Local Abbreviation encode := (encode py_repr Decimal128_str) (only parsing).
Local Abbreviation convert_and_write :=
  (convert_and_write py_repr Decimal128_str bson_decode_all) (only parsing).
Local Abbreviation bson_to_json_run :=
  (bson_to_json_run py_repr Decimal128_str bson_decode_all str_lower) (only parsing).

(** X24.  When the output exists and [-y] was not given, [bson_to_json]
    goes on exactly when the line typed at the prompt is [y] or [Y] with
    any white space around it, the white space of Unicode included; every
    other line, [yes] included, cancels the run, which returns without an
    exception and leaves the output as it was.  Without an existing output,
    or with [-y], nothing is asked.  The hypothesis is the library's: only
    [y] and [Y] are lowered to [y]. *)
Theorem overwrite_needs_a_bare_y
        (user_input : list N) (read : result (list byte)) (validate : bool) :
  lowers_to_y str_lower ->
  (says_yes user_input ->
   bson_to_json_run true false user_input read validate
   = convert_and_write true read validate)
  /\ (~ says_yes user_input ->
      bson_to_json_run true false user_input read validate = JsonRun true Kept None)
  /\ (forall output_exists overwrite,
         output_exists = false \/ overwrite = true ->
         bson_to_json_run output_exists overwrite user_input read validate
         = convert_and_write false read validate).
Proof.
  intros Hlow. repeat split.
  - intros H. apply (lower_strip_yes _ _ Hlow) in H.
    now rewrite bson_to_json_run_prompt, H.
  - intros H. rewrite bson_to_json_run_prompt.
    destruct (differs (str_lower (strip user_input)) [SMALL_Y]) eqn:E; [reflexivity|].
    exfalso. now apply H, (lower_strip_yes _ _ Hlow).
  - intros output_exists overwrite H. now apply bson_to_json_run_silent.
Qed.

(** X25.  What a run of [bson_to_json] leaves of the output file.  When
    the input cannot be read or [bson.decode_all] rejects the bytes, the
    exception leaves before the output is opened and the file is as it was;
    a [BSONError] leaves as a [ValueError].  When the bytes decode, the
    output is opened, and either the dump completes and no exception
    leaves, or the dump meets a value it cannot encode: the exception is a
    [TypeError] and the former content of the output is lost. *)
Theorem output_is_opened_only_after_decoding
        (asked : bool) (bson_data : list byte) (validate : bool) :
  (forall e,
      convert_and_write asked (inl e) validate = JsonRun asked Kept (Some e))
  /\ (forall e,
         bson_decode_all bson_data = inl e ->
         convert_and_write asked (inr bson_data) validate
         = JsonRun asked Kept (Some (if is_BSONError e then ValueError else e)))
  /\ (forall decoded_data,
         bson_decode_all bson_data = inr decoded_data ->
         (exists J,
             encode (VList decoded_data) = inr J
             /\ convert_and_write asked (inr bson_data) validate
                = JsonRun asked (Written J) None)
         \/ (encode (VList decoded_data) = inl TypeError
             /\ convert_and_write asked (inr bson_data) validate
                = JsonRun asked Opened (Some TypeError))).
Proof.
  repeat split.
  - intros e H. now rewrite convert_and_write_unfold, H.
  - intros decoded_data H.
    pose proof (encode_result py_repr Decimal128_str (VList decoded_data)) as R.
    rewrite convert_and_write_unfold, H.
    destruct (encode (VList decoded_data)) as [e|J].
    + right. subst e. now split.
    + left. exists J. now split.
Qed.

(** X20.  Whenever a run of [bson_to_json] completes its dump, the input
    was read and decoded, and the output holds a JSON sequence with one
    element per decoded document, in order, each the encoding of its
    document and made of null, booleans, numbers, strings, lists and dicts
    only. *)
Theorem bson_to_json_writes_one_element_per_document
        (asked : bool) (read : result (list byte)) (validate : bool) (J : value) :
  output (convert_and_write asked read validate) = Written J ->
  exists bson_data docs js,
    read = inr bson_data
    /\ bson_decode_all bson_data = inr docs
    /\ J = VList js
    /\ Forall2 (fun d j => encode d = inr j) docs js
    /\ is_json J = true.
Proof.
  destruct read as [e|bson_data]; [discriminate|].
  rewrite convert_and_write_unfold.
  destruct (bson_decode_all bson_data) as [e|docs] eqn:Hall; [discriminate|].
  pose proof (encode_result py_repr Decimal128_str (VList docs)) as H.
  rewrite encode_list in *.
  destruct (mapM encode docs) as [e|js] eqn:Hjs; cbn [bind ret] in *; [discriminate|].
  cbn [output]. intros E. injection E as <-.
  exists bson_data, docs, js.
  repeat split; [exact Hall | now apply mapM_inr_Forall2 | exact H].
Qed.

End BsonToJsonFacts.

(** An em space, [Y] and a space go on, and [yes] does not. *)
Lemma overwrite_prompt_on_samples :
  bson_to_json_run sample_repr sample_Decimal128_str dated_bson_decode_all
    ascii_lower true false [8195; 89; 32]%N (inr []) false
  = convert_and_write sample_repr sample_Decimal128_str dated_bson_decode_all
      true (inr []) false
  /\ bson_to_json_run sample_repr sample_Decimal128_str dated_bson_decode_all
       ascii_lower true false [121; 101; 115]%N (inr []) false
     = JsonRun true Kept None.
Proof.
  split.
  - apply (proj1 (overwrite_needs_a_bare_y sample_repr sample_Decimal128_str
                    dated_bson_decode_all ascii_lower [8195; 89; 32]%N (inr [])
                    false ascii_lower_to_y)).
    exists [8195%N], [32%N], 89%N. repeat split. now right.
  - apply (proj1 (proj2 (overwrite_needs_a_bare_y sample_repr sample_Decimal128_str
                           dated_bson_decode_all ascii_lower [121; 101; 115]%N
                           (inr []) false ascii_lower_to_y))).
    intros H. apply (lower_strip_yes _ _ ascii_lower_to_y) in H. discriminate H.
Defined.

(** The three fates of the output: a refused stream, an empty stream, and
    a stream with a date. *)
Lemma output_fate_on_samples :
  convert_and_write sample_repr sample_Decimal128_str dated_bson_decode_all
    true (inr [x00]) false
  = JsonRun true Kept (Some ValueError)
  /\ convert_and_write sample_repr sample_Decimal128_str dated_bson_decode_all
       true (inr []) true
     = JsonRun true (Written (VList [])) None
  /\ convert_and_write sample_repr sample_Decimal128_str dated_bson_decode_all
       true (inr [x00; x00]) true
     = JsonRun true Opened (Some TypeError).
Proof.
  split; [|split].
  - exact (proj1 (proj2 (output_is_opened_only_after_decoding sample_repr
                           sample_Decimal128_str dated_bson_decode_all
                           true [x00] false)) InvalidBSON eq_refl).
  - destruct (proj2 (proj2 (output_is_opened_only_after_decoding sample_repr
                              sample_Decimal128_str dated_bson_decode_all
                              true [] true)) [] eq_refl)
      as [(J & HJ & E) | (HT & E)].
    + injection HJ as <-. exact E.
    + discriminate HT.
  - destruct (proj2 (proj2 (output_is_opened_only_after_decoding sample_repr
                              sample_Decimal128_str dated_bson_decode_all
                              true [x00; x00] true)) dated_documents eq_refl)
      as [(J & HJ & E) | (HT & E)].
    + discriminate HJ.
    + exact E.
Defined.

(** The stream of three documents is written as three elements, the
    second with its identifier under [$oid]. *)
Lemma written_json_of_three_documents :
  exists bson_data docs js,
    @inr exn (list byte) three_document_stream = inr bson_data
    /\ id_bson_decode_all bson_data = inr docs
    /\ VList [VDict [];
              VDict [("_id", VDict [("$oid", VStr "654af03c9d1e2b0017a45c01")])];
              VDict []]
       = VList js
    /\ Forall2 (fun d j => encode sample_repr sample_Decimal128_str d = inr j) docs js
    /\ is_json (VList [VDict [];
                       VDict [("_id", VDict [("$oid", VStr "654af03c9d1e2b0017a45c01")])];
                       VDict []])
       = true.
Proof.
  exact (bson_to_json_writes_one_element_per_document sample_repr
           sample_Decimal128_str id_bson_decode_all false
           (inr three_document_stream) true _ eq_refl).
Defined.
